(** * Session controller: the exactly-once response discipline

    A shallow embedding of the request handlers of
    [src/controllers/sessionController.js] (module [Controller]) and of the
    instrumented variant of the same controller in [src/unnamed/part_000]
    (module [Part000]), followed by the properties of the specification that
    concern them.

    A handler is a computation over a [World]: the transport state of the one
    response it owns, the shared session registry, and a trace of what the
    handler did.  Collaborators ([setupSession], [validateSession], ...) are
    external; they are taken as a record of functions.  Scheduling is
    cooperative: between two suspension points nothing but the handler runs,
    and at an [await] another layer may write to the response, which the
    reply of the awaited call records.  A handler may also be entered on a
    response that another layer has already written to. *)

From Stdlib Require Import ZArith List Bool.
From stdpp Require Import base gmap strings.
Import ListNotations.

Local Open Scope Z_scope.
Local Open Scope string_scope.
Set Warnings "-register-all".

(** ** JavaScript values that reach a response body *)

Inductive Value : Type :=
| VUndefined
| VNull
| VBool (b : bool)
| VStr (s : string)
| VObj (fields : list (string * Value)).

(** An [Error] object and its [message]. *)
Inductive Exn : Type := Error (msg : string).

Definition error_message (e : Exn) : string := let 'Error m := e in m.

(** What a [throw] or a rejected promise carries: an [Error] object, or any
    other value ([null] and [undefined] included). *)
Inductive Thrown : Type :=
| ErrorObject (e : Exn)
| NonError (v : Value).

(** A call returns, throws an [Error] object, or throws another value. *)
Inductive Outcome (A : Type) : Type :=
| Returns (a : A)
| Throws (e : Exn)
| ThrowsValue (v : Value).
Arguments Returns {A} a.
Arguments Throws {A} e.
Arguments ThrowsValue {A} v.

(** Property lookup in an object, given as the list of its properties (the
    keys are distinct). *)
Fixpoint field (k : string) (fs : list (string * Value)) : Value :=
  match fs with
  | [] => VUndefined
  | (k', v) :: fs' => if String.eqb k k' then v else field k fs'
  end.

(** [v.k]: a [TypeError] on [undefined] and [null], [undefined] on the other
    primitives, the bound value on an object. *)
Definition member (v : Value) (k : string) : Outcome Value :=
  match v with
  | VUndefined =>
      Throws (Error ("Cannot read properties of undefined (reading '" ++ k ++ "')"))
  | VNull =>
      Throws (Error ("Cannot read properties of null (reading '" ++ k ++ "')"))
  | VObj fs => Returns (field k fs)
  | _ => Returns VUndefined
  end.

(** [v === 'lit'] *)
Definition strict_eq_str (v : Value) (lit : string) : bool :=
  match v with
  | VStr s => String.eqb s lit
  | _ => false
  end.

(** ** Sessions and the registry *)

(** Of a session the controller reads only [qr], an optional string. *)
Record Session : Type := mkSession { qr : option string }.

(** Truthiness of [session.qr]: absent and the empty string are falsy. *)
Definition truthy (q : option string) : bool :=
  match q with
  | Some s => negb (String.eqb s "")
  | None => false
  end.

(** The client handle that [setupSession] yields is opaque to the handler. *)
Inductive Client : Type := ClientHandle (n : nat).

Record SetupReturn : Type := mkSetupReturn {
  success : bool;
  message : string;
  client : option Client
}.

(** The readable stream that [qr.image] returns, and what piping it does. *)
Inductive PipeResult : Type :=
| Flows
| Breaks (msg : string) (endedFirst : bool).

Record QrStream : Type := mkQrStream { png_of : string; on_pipe : PipeResult }.

(** ** The transport *)

Record Response : Type := mkResponse {
  headersSent : bool;
  writableEnded : bool;
  statusCode : Z
}.

(** A response that nobody has touched yet. *)
Definition fresh : Response :=
  {| headersSent := false; writableEnded := false; statusCode := 200 |}.

(** Calls a handler makes on the response object. *)
Inductive Call : Type :=
| json (status : Z) (body : Value)
| writeHead (status : Z) (headers : list (string * string))
| pipe (source : QrStream)
| end_.

(** Calls a handler makes on its collaborators. *)
Inductive Invocation : Type :=
| setupSession_ (id : string)
| waitForNestedObject_ (root : option Client) (path : string)
| validateSession_ (id : string)
| reloadSession_ (id : string)
| deleteSession_ (id : string) (validation : Value)
| flushSessions_ (onlyInactive : bool)
| qr_image_ (text : string) (type : option string).

Inductive Event : Type :=
| Invoked (c : Invocation) (fault : option Thrown)
| Caught (error : Thrown)
| Sent (c : Call).

(** A trace entry: the event, and the two transport flags as they were at
    the moment of the event. *)
Record Entry : Type := mkEntry {
  sent_before : bool;
  ended_before : bool;
  what : Event
}.

(** What another layer did to the transport while the handler was suspended
    at an [await]. *)
Inductive Meanwhile : Type :=
| Untouched
| HeadersCommitted
| Responded.

Definition interfere (mw : Meanwhile) (r : Response) : Response :=
  match mw with
  | Untouched => r
  | HeadersCommitted =>
      {| headersSent := true; writableEnded := writableEnded r;
         statusCode := statusCode r |}
  | Responded =>
      {| headersSent := true; writableEnded := true; statusCode := statusCode r |}
  end.

(** The answer of an awaited collaborator call. *)
Record Reply (A : Type) : Type := mkReply {
  meanwhile : Meanwhile;
  outcome : Outcome A;
  registry_after : gmap string Session
}.
Arguments mkReply {A} _ _ _.
Arguments meanwhile {A} _.
Arguments outcome {A} _.
Arguments registry_after {A} _.

(** The collaborators of [require('../sessions')], [require('../utils')]
    and [require('qr-image')].  [setupSession] and [qr.image] are called
    without [await]; the others are awaited. *)
Record Collaborators : Type := mkCollaborators {
  setupSession :
    string -> gmap string Session -> Outcome SetupReturn * gmap string Session;
  waitForNestedObject :
    option Client -> string -> gmap string Session -> Reply unit;
  validateSession : string -> gmap string Session -> Reply Value;
  reloadSession : string -> gmap string Session -> Reply unit;
  deleteSession : string -> Value -> gmap string Session -> Reply unit;
  flushSessions : bool -> gmap string Session -> Reply unit;
  qr_image : string -> option string -> Outcome QrStream
}.

Record Request : Type := mkRequest { sessionId : string }.

(** ** Handler computations *)

(** [res] is the response object of the request, [sessions] the registry
    ([Map] from session id to session), [trace] what has happened so far,
    and [thisHandlerResponded] the local flag of that name in the
    instrumented [startSession]. *)
Record World : Type := mkWorld {
  res : Response;
  sessions : gmap string Session;
  trace : list Entry;
  thisHandlerResponded : bool
}.

Inductive Result (A : Type) : Type :=
| Normal (a : A)
| Raised (e : Thrown).
Arguments Normal {A} a.
Arguments Raised {A} e.

Definition M (A : Type) : Type := World -> Result A * World.

Definition ret {A} (a : A) : M A := fun w => (Normal a, w).

Definition bind {A B} (m : M A) (k : A -> M B) : M B :=
  fun w =>
    match m w with
    | (Normal a, w') => k a w'
    | (Raised e, w') => (Raised e, w')
    end.

Definition raise {A} (e : Thrown) : M A := fun w => (Raised e, w).

Declare Scope handler_scope.
Delimit Scope handler_scope with handler.
Notation "x <- m ;; k" := (bind m (fun x => k))
  (at level 100, m at next level, right associativity) : handler_scope.
Notation "m ;; k" := (bind m (fun _ => k))
  (at level 100, right associativity) : handler_scope.
Local Open Scope handler_scope.

Definition record (ev : Event) : M unit :=
  fun w =>
    (Normal tt,
     {| res := res w; sessions := sessions w;
        trace := trace w ++
          [ {| sent_before := headersSent (res w);
               ended_before := writableEnded (res w);
               what := ev |} ];
        thisHandlerResponded := thisHandlerResponded w |}).

Definition set_res (r : Response) : M unit :=
  fun w =>
    (Normal tt,
     {| res := r; sessions := sessions w; trace := trace w;
        thisHandlerResponded := thisHandlerResponded w |}).

Definition set_sessions (reg : gmap string Session) : M unit :=
  fun w =>
    (Normal tt,
     {| res := res w; sessions := reg; trace := trace w;
        thisHandlerResponded := thisHandlerResponded w |}).

Definition set_thisHandlerResponded (b : bool) : M unit :=
  fun w =>
    (Normal tt,
     {| res := res w; sessions := sessions w; trace := trace w;
        thisHandlerResponded := b |}).

Definition get_res : M Response := fun w => (Normal (res w), w).
Definition get_sessions : M (gmap string Session) := fun w => (Normal (sessions w), w).
Definition get_thisHandlerResponded : M bool :=
  fun w => (Normal (thisHandlerResponded w), w).

(** [res.headersSent], [res.writableEnded] *)
Definition res_headersSent : M bool := r <- get_res ;; ret (headersSent r).
Definition res_writableEnded : M bool := r <- get_res ;; ret (writableEnded r).

Definition of_outcome {A} (o : Outcome A) : M A :=
  match o with
  | Returns a => ret a
  | Throws e => raise (ErrorObject e)
  | ThrowsValue v => raise (NonError v)
  end.

Definition fault_of {A} (o : Outcome A) : option Thrown :=
  match o with
  | Returns _ => None
  | Throws e => Some (ErrorObject e)
  | ThrowsValue v => Some (NonError v)
  end.

(** [error.message] in a catch block: the message of an [Error] object;
    on another value a property read, which throws a [TypeError] on [null]
    and [undefined]. *)
Definition thrown_message (error : Thrown) : M Value :=
  match error with
  | ErrorObject e => ret (VStr (error_message e))
  | NonError v => of_outcome (member v "message")
  end.

(** A call that is not awaited: the handler is not suspended. *)
Definition call {A} (c : Invocation)
    (f : gmap string Session -> Outcome A * gmap string Session) : M A :=
  reg <- get_sessions ;;
  record (Invoked c (fault_of (fst (f reg)))) ;;
  set_sessions (snd (f reg)) ;;
  of_outcome (fst (f reg)).

(** [await f(...)]: the handler is suspended; when it resumes the transport
    and the registry are as the reply says. *)
Definition await {A} (c : Invocation) (f : gmap string Session -> Reply A) : M A :=
  reg <- get_sessions ;;
  record (Invoked c (fault_of (outcome (f reg)))) ;;
  r <- get_res ;;
  set_res (interfere (meanwhile (f reg)) r) ;;
  set_sessions (registry_after (f reg)) ;;
  of_outcome (outcome (f reg)).

(** [try { body } catch (error) { handler }].  The [Caught] event marks
    the entry into the catch block with the value caught; what the block
    reads of it is for the handler to say. *)
Definition try_catch {A} (body : M A) (handler : Thrown -> M A) : M A :=
  fun w =>
    match body w with
    | (Normal a, w') => (Normal a, w')
    | (Raised e, w') => (record (Caught e) ;; handler e) w'
    end.

(** *** The response object (Express on Node's [http.ServerResponse]) *)

Definition ERR_HTTP_HEADERS_SENT : Exn :=
  Error "Cannot set headers after they are sent to the client".

(** [res.status(code)] *)
Definition res_status (code : Z) : M unit :=
  r <- get_res ;;
  set_res {| headersSent := headersSent r; writableEnded := writableEnded r;
             statusCode := code |}.

(** [res.json(body)]: sets headers, which throws once they are sent;
    otherwise writes status, headers and body and ends the response. *)
Definition res_json (body : Value) : M unit :=
  r <- get_res ;;
  record (Sent (json (statusCode r) body)) ;;
  if headersSent r then raise (ErrorObject ERR_HTTP_HEADERS_SENT)
  else set_res {| headersSent := true; writableEnded := true;
                  statusCode := statusCode r |}.

(** [res.writeHead(code, headers)] *)
Definition res_writeHead (code : Z) (headers : list (string * string)) : M unit :=
  r <- get_res ;;
  record (Sent (writeHead code headers)) ;;
  if headersSent r then raise (ErrorObject ERR_HTTP_HEADERS_SENT)
  else set_res {| headersSent := true; writableEnded := writableEnded r;
                  statusCode := code |}.

(** [stream.pipe(res)] returns at once and never throws into the handler.
    A stream that flows delivers the body and ends the response; one that
    breaks emits its error later, to nobody (the handlers attach no
    listener), and does not end the response. *)
Definition stream_pipe (s : QrStream) : M unit :=
  r <- get_res ;;
  record (Sent (pipe s)) ;;
  match on_pipe s with
  | Flows =>
      set_res {| headersSent := headersSent r; writableEnded := true;
                 statusCode := statusCode r |}
  | Breaks msg endedFirst =>
      set_res {| headersSent := headersSent r;
                 writableEnded := writableEnded r || endedFirst;
                 statusCode := statusCode r |}
  end.

(** [res.end()] *)
Definition res_end : M unit :=
  r <- get_res ;;
  record (Sent end_) ;;
  set_res {| headersSent := true; writableEnded := true;
             statusCode := statusCode r |}.

(** Modelled from the spec: [sendErrorResponse] of [../utils], which is not
    among the sources.  The error body shape is [{success:false,
    message:<string>}] with a status code chosen by the caller. *)
Definition error_body (msg : string) : Value :=
  VObj [("success", VBool false); ("message", VStr msg)].

(** The same shape for a message that is whatever [error.message] read. *)
Definition error_body_of (msg : Value) : Value :=
  VObj [("success", VBool false); ("message", msg)].

Definition sendErrorResponse (status : Z) (msg : Value) : M unit :=
  res_status status ;; res_json (error_body_of msg).

(** Bodies the handlers build. *)
Definition message_body (ok : bool) (msg : string) : Value :=
  VObj [("success", VBool ok); ("message", VStr msg)].

Definition image_png : list (string * string) := [("Content-Type", "image/png")].

(** [{ success: true, qr: session.qr }] carries the field as it is. *)
Definition qr_value (q : option string) : Value :=
  match q with
  | Some s => VStr s
  | None => VUndefined
  end.

Definition qr_body (q : option string) : Value :=
  VObj [("success", VBool true); ("qr", qr_value q)].

(** The string handed to [qr.image] once [session.qr] is known to be truthy. *)
Definition qr_text (q : option string) : string :=
  match q with
  | Some s => s
  | None => ""
  end.

Definition session_not_found : Value := message_body false "session_not_found".
Definition qr_not_ready : Value :=
  message_body false "qr code not ready or already scanned".

(** A request enters a handler with an empty trace. *)
Definition serve (h : Request -> M unit) (req : Request)
    (reg : gmap string Session) (r : Response) : Result unit * World :=
  h req {| res := r; sessions := reg; trace := []; thisHandlerResponded := false |}.

(** ** [src/controllers/sessionController.js]

    A [return] inside a branch is rendered by putting the rest of the block
    in the other branch.  Console output is not modelled, except that a log
    line which reads [error.message] performs that read. *)
Module Controller.
Section Handlers.
Variable K : Collaborators.

Definition startSession (req : Request) : M unit :=
  let sessionId := sessionId req in
  try_catch
    (setupSessionReturn <-
       call (setupSession_ sessionId) (setupSession K sessionId) ;;
     if negb (success setupSessionReturn) then
       sendErrorResponse 422 (VStr (message setupSessionReturn))
     else
       try_catch
         (await (waitForNestedObject_ (client setupSessionReturn) "pupPage")
                (waitForNestedObject K (client setupSessionReturn) "pupPage") ;;
          sent <- res_headersSent ;;
          if negb sent then
            res_json (message_body true (message setupSessionReturn))
          else ret tt)
         (fun waitError =>
            _ <- thrown_message waitError ;;
            sent <- res_headersSent ;;
            if negb sent then
              (msg <- thrown_message waitError ;; sendErrorResponse 500 msg)
            else (_ <- thrown_message waitError ;; ret tt)))
    (fun error =>
       sent <- res_headersSent ;;
       if negb sent then
         (msg <- thrown_message error ;; sendErrorResponse 500 msg)
       else ret tt).

Definition statusSession (req : Request) : M unit :=
  let sessionId := sessionId req in
  try_catch
    (sessionData <-
       await (validateSession_ sessionId) (validateSession K sessionId) ;;
     sent <- res_headersSent ;;
     if negb sent then res_json sessionData else ret tt)
    (fun error =>
       sent <- res_headersSent ;;
       if negb sent then
         (msg <- thrown_message error ;; sendErrorResponse 500 msg)
       else ret tt).

Definition sessionQrCode (req : Request) : M unit :=
  let sessionId := sessionId req in
  try_catch
    (reg <- get_sessions ;;
     let session := reg !! sessionId in
     sent <- res_headersSent ;;
     if negb sent then
       match session with
       | None => res_json session_not_found
       | Some session =>
           if truthy (qr session) then res_json (qr_body (qr session))
           else res_json qr_not_ready
       end
     else ret tt)
    (fun error =>
       sent <- res_headersSent ;;
       if negb sent then
         (msg <- thrown_message error ;; sendErrorResponse 500 msg)
       else ret tt).

Definition sessionQrCodeImage (req : Request) : M unit :=
  let sessionId := sessionId req in
  try_catch
    (reg <- get_sessions ;;
     let session := reg !! sessionId in
     sent <- res_headersSent ;;
     if negb sent then
       match session with
       | None => res_json session_not_found
       | Some session =>
           if truthy (qr session) then
             qrImage <-
               call (qr_image_ (qr_text (qr session)) None)
                    (fun reg => (qr_image K (qr_text (qr session)) None, reg)) ;;
             res_writeHead 200 image_png ;;
             stream_pipe qrImage
           else res_json qr_not_ready
       end
     else ret tt)
    (fun error =>
       sent <- res_headersSent ;;
       if negb sent then
         (msg <- thrown_message error ;; sendErrorResponse 500 msg)
       else
         (_ <- thrown_message error ;;
          ended <- res_writableEnded ;;
          if negb ended then res_end else ret tt)).

Definition restartSession (req : Request) : M unit :=
  let sessionId := sessionId req in
  try_catch
    (validation <-
       await (validateSession_ sessionId) (validateSession K sessionId) ;;
     sent <- res_headersSent ;;
     if negb sent then
       (validation_message <- of_outcome (member validation "message") ;;
        if strict_eq_str validation_message "session_not_found" then
          res_json validation
        else
          (await (reloadSession_ sessionId) (reloadSession K sessionId) ;;
           res_json (message_body true "Restarted successfully")))
     else ret tt)
    (fun error =>
       sent <- res_headersSent ;;
       if negb sent then
         (msg <- thrown_message error ;; sendErrorResponse 500 msg)
       else ret tt).

Definition terminateSession (req : Request) : M unit :=
  let sessionId := sessionId req in
  try_catch
    (validation <-
       await (validateSession_ sessionId) (validateSession K sessionId) ;;
     sent <- res_headersSent ;;
     if negb sent then
       (validation_message <- of_outcome (member validation "message") ;;
        if strict_eq_str validation_message "session_not_found" then
          res_json validation
        else
          (await (deleteSession_ sessionId validation)
                 (deleteSession K sessionId validation) ;;
           res_json (message_body true "Logged out successfully")))
     else ret tt)
    (fun error =>
       sent <- res_headersSent ;;
       if negb sent then
         (msg <- thrown_message error ;; sendErrorResponse 500 msg)
       else ret tt).

Definition terminateInactiveSessions (_ : Request) : M unit :=
  try_catch
    (await (flushSessions_ true) (flushSessions K true) ;;
     sent <- res_headersSent ;;
     if negb sent then
       res_json (message_body true "Flush completed successfully")
     else ret tt)
    (fun error =>
       sent <- res_headersSent ;;
       if negb sent then
         (msg <- thrown_message error ;; sendErrorResponse 500 msg)
       else ret tt).

Definition terminateAllSessions (_ : Request) : M unit :=
  try_catch
    (await (flushSessions_ false) (flushSessions K false) ;;
     sent <- res_headersSent ;;
     if negb sent then
       res_json (message_body true "Flush completed successfully")
     else ret tt)
    (fun error =>
       sent <- res_headersSent ;;
       if negb sent then
         (msg <- thrown_message error ;; sendErrorResponse 500 msg)
       else ret tt).

(** [module.exports] *)
Definition exports : list (string * (Request -> M unit)) :=
  [ ("startSession", startSession);
    ("statusSession", statusSession);
    ("sessionQrCode", sessionQrCode);
    ("sessionQrCodeImage", sessionQrCodeImage);
    ("restartSession", restartSession);
    ("terminateSession", terminateSession);
    ("terminateInactiveSessions", terminateInactiveSessions);
    ("terminateAllSessions", terminateAllSessions) ].
End Handlers.
End Controller.

(** ** The instrumented variant of the controller

    Its [startSession] keeps a local flag [thisHandlerResponded]; its
    [finally] block only logs.  It defines four handlers. *)
Module Part000.
Section Handlers.
Variable K : Collaborators.

Definition startSession (req : Request) : M unit :=
  let sessionId := sessionId req in
  set_thisHandlerResponded false ;;
  try_catch
    (setupSessionReturn <-
       call (setupSession_ sessionId) (setupSession K sessionId) ;;
     responded <- get_thisHandlerResponded ;;
     sent <- res_headersSent ;;
     if responded || sent then ret tt
     else if negb (success setupSessionReturn) then
       (sent <- res_headersSent ;;
        if negb sent then
          (set_thisHandlerResponded true ;;
           sendErrorResponse 422 (VStr (message setupSessionReturn)))
        else ret tt)
     else
       try_catch
         (match client setupSessionReturn with
          | None => raise (ErrorObject
                              (Error "setupSession did not return a client object."))
          | Some _ => ret tt
          end ;;
          await (waitForNestedObject_ (client setupSessionReturn) "pupPage")
                (waitForNestedObject K (client setupSessionReturn) "pupPage") ;;
          sent <- res_headersSent ;;
          if negb sent then
            (set_thisHandlerResponded true ;;
             res_json (message_body true (message setupSessionReturn)))
          else ret tt)
         (fun waitError =>
            _ <- thrown_message waitError ;;
            sent <- res_headersSent ;;
            if negb sent then
              (set_thisHandlerResponded true ;;
               msg <- thrown_message waitError ;;
               sendErrorResponse 500 msg)
            else (_ <- thrown_message waitError ;; ret tt)))
    (fun error =>
       _ <- thrown_message error ;;
       responded <- get_thisHandlerResponded ;;
       sent <- res_headersSent ;;
       if negb responded && negb sent then
         (set_thisHandlerResponded true ;;
          msg <- thrown_message error ;;
          sendErrorResponse 500 msg)
       else (_ <- thrown_message error ;; ret tt)).

Definition statusSession (req : Request) : M unit :=
  let sessionId := sessionId req in
  try_catch
    (sessionData <-
       await (validateSession_ sessionId) (validateSession K sessionId) ;;
     sent <- res_headersSent ;;
     if negb sent then res_json sessionData else ret tt)
    (fun error =>
       _ <- thrown_message error ;;
       sent <- res_headersSent ;;
       if negb sent then
         (msg <- thrown_message error ;; sendErrorResponse 500 msg)
       else ret tt).

Definition sessionQrCode (req : Request) : M unit :=
  let sessionId := sessionId req in
  try_catch
    (reg <- get_sessions ;;
     let session := reg !! sessionId in
     sent <- res_headersSent ;;
     if negb sent then
       match session with
       | None => res_status 404 ;; res_json session_not_found
       | Some session =>
           if truthy (qr session) then res_json (qr_body (qr session))
           else (res_status 200 ;; res_json qr_not_ready)
       end
     else ret tt)
    (fun error =>
       _ <- thrown_message error ;;
       sent <- res_headersSent ;;
       if negb sent then
         (msg <- thrown_message error ;; sendErrorResponse 500 msg)
       else ret tt).

Definition sessionQrCodeImage (req : Request) : M unit :=
  let sessionId := sessionId req in
  try_catch
    (reg <- get_sessions ;;
     let session := reg !! sessionId in
     sent <- res_headersSent ;;
     if sent then
       (ended <- res_writableEnded ;;
        if negb ended then res_end else ret tt)
     else
       match session with
       | None => res_status 404 ;; res_json session_not_found
       | Some session =>
           if truthy (qr session) then
             qrImage <-
               call (qr_image_ (qr_text (qr session)) (Some "png"))
                    (fun reg =>
                       (qr_image K (qr_text (qr session)) (Some "png"), reg)) ;;
             res_writeHead 200 image_png ;;
             stream_pipe qrImage
           else (res_status 200 ;; res_json qr_not_ready)
       end)
    (fun error =>
       _ <- thrown_message error ;;
       sent <- res_headersSent ;;
       if negb sent then
         (msg <- thrown_message error ;; sendErrorResponse 500 msg)
       else
         (ended <- res_writableEnded ;;
          if negb ended then res_end else ret tt)).
End Handlers.
End Part000.

(** ** Reading a trace *)

(** A terminal write is a call that commits status and headers. *)
Definition is_write (c : Call) : bool :=
  match c with
  | json _ _ | writeHead _ _ => true
  | pipe _ | end_ => false
  end.

Definition write_entry (e : Entry) : bool :=
  match what e with
  | Sent c => is_write c
  | _ => false
  end.

(** The write went out: the headers were not sent when it was made. *)
Definition performed (e : Entry) : bool := write_entry e && negb (sent_before e).

(** The write site was entered although the headers were already sent. *)
Definition unguarded (e : Entry) : bool := write_entry e && sent_before e.

Definition writes_performed (t : list Entry) : nat := length (List.filter performed t).

Definition all_writes_guarded (t : list Entry) : bool :=
  forallb (fun e => negb (unguarded e)) t.

Definition is_call (e : Entry) : bool :=
  match what e with
  | Sent _ => true
  | _ => false
  end.

(** The calls made on the response object, in order. *)
Definition calls_of (t : list Entry) : list Entry := List.filter is_call t.

Fixpoint invocations (t : list Entry) : list Invocation :=
  match t with
  | [] => []
  | e :: t' =>
      match what e with
      | Invoked c _ => c :: invocations t'
      | _ => invocations t'
      end
  end.

Inductive Body : Type :=
| JsonBody (v : Value)
| StreamBody (headers : list (string * string)) (source : option QrStream).

Fixpoint piped (t : list Entry) : option QrStream :=
  match t with
  | [] => None
  | e :: t' =>
      match what e with
      | Sent (pipe s) => Some s
      | _ => piped t'
      end
  end.

(** The response the client observes: status and body of the first write
    that went out. *)
Fixpoint response_of (t : list Entry) : option (Z * Body) :=
  match t with
  | [] => None
  | e :: t' =>
      match what e, sent_before e with
      | Sent (json s b), false => Some (s, JsonBody b)
      | Sent (writeHead s h), false => Some (s, StreamBody h (piped t'))
      | _, _ => response_of t'
      end
  end.

Definition sent_entry (sent ended : bool) (c : Call) : Entry :=
  {| sent_before := sent; ended_before := ended; what := Sent c |}.

(** ** Statements about runs *)

(** A computation is a no-op on a transport whose headers are sent: it
    performs no write and leaves the headers sent. *)
Definition no_op_once_sent {A} (m : M A) : Prop :=
  forall w,
    headersSent (res w) = true ->
    headersSent (res (snd (m w))) = true
    /\ writes_performed (trace (snd (m w))) = writes_performed (trace w).

(** Nobody else touches the response while the readiness wait is pending. *)
Definition wait_undisturbed (K : Collaborators) : Prop :=
  forall root path reg,
    meanwhile (waitForNestedObject K root path reg) = Untouched.

(** The handler made one call on the response, a JSON write that went out
    with the given status and body. *)
Definition answers_json (r : Response) (t : list Entry)
    (status : Z) (body : Value) : Prop :=
  calls_of t = [sent_entry false (writableEnded r) (json status body)]
  /\ response_of t = Some (status, JsonBody body).

(** What the client observes of a handler run on an untouched response. *)
Definition observed (h : Request -> M unit) (req : Request)
    (reg : gmap string Session) : option (Z * Body) :=
  response_of (trace (snd (serve h req reg fresh))).

(** [qr.image(text)] without options produces a PNG, as with
    [{ type: 'png' }]. *)
Definition png_by_default (K : Collaborators) : Prop :=
  forall text, qr_image K text None = qr_image K text (Some "png").

(** Everything a run shows except the registry it ran on. *)
Definition visible (x : Result unit * World) : Result unit * Response * list Entry :=
  (fst x, res (snd x), trace (snd x)).

Definition is_json (e : Entry) : bool :=
  match what e with
  | Sent (json _ _) => true
  | _ => false
  end.

Definition is_end (e : Entry) : bool :=
  match what e with
  | Sent end_ => true
  | _ => false
  end.

(** All the ways of writing [l] as [pre ++ x :: post]. *)
Fixpoint splits {A} (l : list A) : list (list A * A * list A) :=
  match l with
  | [] => []
  | x :: l' =>
      ([], x, l') :: map (fun '(pre, y, post) => (x :: pre, y, post)) (splits l')
  end.

(** Some collaborator call of the trace threw a value that is not an
    [Error] object. *)
Definition threw_non_error (t : list Entry) : bool :=
  existsb (fun c => match what c with
                    | Invoked _ (Some (NonError _)) => true
                    | _ => false
                    end) t.

(** A handler contains the [Error] objects its collaborators throw: it
    resolves in every execution in which no collaborator threw anything but
    an [Error] object, and a collaborator call that fails with an [Error]
    object is followed at once by its catch; if the headers are not sent at
    that point, what follows is the single status-500 error response
    carrying the error's message, and that is what the client observes. *)
Definition faults_contained (h : Request -> M unit) : Prop :=
  forall req reg r,
    (threw_non_error (trace (snd (serve h req reg r))) = false ->
     fst (serve h req reg r) = Normal tt)
    /\ forall pre c post inv e,
         trace (snd (serve h req reg r)) = (pre ++ c :: post)%list ->
         what c = Invoked inv (Some (ErrorObject e)) ->
         exists c' post',
           post = c' :: post'
           /\ what c' = Caught (ErrorObject e)
           /\ (sent_before c' = false ->
               post' = [sent_entry false (ended_before c')
                                   (json 500 (error_body (error_message e)))]
               /\ response_of (trace (snd (serve h req reg r)))
                    = Some (500, JsonBody (error_body (error_message e)))).

(** The collaborators throw [Error] objects only. *)
Definition throws_errors_only (K : Collaborators) : Prop :=
  (forall id reg v, fst (setupSession K id reg) <> ThrowsValue v)
  /\ (forall root path reg v,
        outcome (waitForNestedObject K root path reg) <> ThrowsValue v)
  /\ (forall id reg v, outcome (validateSession K id reg) <> ThrowsValue v)
  /\ (forall id reg v, outcome (reloadSession K id reg) <> ThrowsValue v)
  /\ (forall id validation reg v,
        outcome (deleteSession K id validation reg) <> ThrowsValue v)
  /\ (forall onlyInactive reg v,
        outcome (flushSessions K onlyInactive reg) <> ThrowsValue v)
  /\ (forall text type v, qr_image K text type <> ThrowsValue v).

Definition flush_completed : Value :=
  message_body true "Flush completed successfully".

(** Nobody else touches the response while any awaited call is pending. *)
Definition undisturbed (K : Collaborators) : Prop :=
  wait_undisturbed K
  /\ (forall id reg, meanwhile (validateSession K id reg) = Untouched)
  /\ (forall id reg, meanwhile (reloadSession K id reg) = Untouched)
  /\ (forall id validation reg,
        meanwhile (deleteSession K id validation reg) = Untouched)
  /\ (forall onlyInactive reg,
        meanwhile (flushSessions K onlyInactive reg) = Untouched).

(** The handlers that the instrumented variant defines (its
    [module.exports] also names four that it leaves to be added). *)
Definition part000_handlers (K : Collaborators) : list (Request -> M unit) :=
  [ Part000.startSession K; Part000.statusSession K;
    Part000.sessionQrCode; Part000.sessionQrCodeImage K ].

(** Every handler of the two files. *)
Definition handlers (K : Collaborators) : list (Request -> M unit) :=
  (map snd (Controller.exports K) ++ part000_handlers K)%list.

(** The handlers whose every write follows a check of [res.headersSent]
    with no suspension in between. *)
Definition checked_handlers (K : Collaborators) : list (Request -> M unit) :=
  ([ Controller.statusSession K; Controller.sessionQrCode;
     Controller.sessionQrCodeImage K; Controller.terminateInactiveSessions K;
     Controller.terminateAllSessions K ] ++ part000_handlers K)%list.

(** The four QR handlers. *)
Definition qr_handlers (K : Collaborators) : list (Request -> M unit) :=
  [ Controller.sessionQrCode; Controller.sessionQrCodeImage K;
    Part000.sessionQrCode; Part000.sessionQrCodeImage K ].

(** When the readiness wait of [startSession] is started. *)
Definition controller_waits (o : Outcome SetupReturn) : option (option Client) :=
  match o with
  | Returns sr => if success sr then Some (client sr) else None
  | Throws _ | ThrowsValue _ => None
  end.

Definition part000_waits (sent : bool) (o : Outcome SetupReturn) :
    option (option Client) :=
  match o with
  | Returns sr =>
      if negb sent && success sr then
        match client sr with
        | Some c => Some (Some c)
        | None => None
        end
      else None
  | Throws _ | ThrowsValue _ => None
  end.

Definition startSession_invocations (id : string)
    (waits : option (option Client)) : list Invocation :=
  match waits with
  | Some root => [setupSession_ id; waitForNestedObject_ root "pupPage"]
  | None => [setupSession_ id]
  end.

(** ** Sample collaborators *)
Module Samples.
Definition steady {A} (o : Outcome A) (reg : gmap string Session) : Reply A :=
  mkReply Untouched o reg.

(** Everything works and nobody else touches the response. *)
Definition calm : Collaborators :=
  {| setupSession := fun id reg =>
       (Returns {| success := true; message := "Session initiated successfully";
                   client := Some (ClientHandle 0) |},
        <[id := mkSession None]> reg);
     waitForNestedObject := fun _ _ reg => steady (Returns tt) reg;
     validateSession := fun id reg =>
       steady (Returns (match reg !! id with
                        | None => message_body false "session_not_found"
                        | Some _ => message_body true "session_connected"
                        end)) reg;
     reloadSession := fun _ reg => steady (Returns tt) reg;
     deleteSession := fun id _ reg => mkReply Untouched (Returns tt) (delete id reg);
     flushSessions := fun _ _ => mkReply Untouched (Returns tt) ∅;
     qr_image := fun text _ => Returns (mkQrStream text Flows) |}.

(** [setupSession] rejects the id. *)
Definition rejecting : Collaborators :=
  {| setupSession := fun id reg =>
       (Returns {| success := false;
                   message := "Session already exists for: " ++ id;
                   client := None |}, reg);
     waitForNestedObject := waitForNestedObject calm;
     validateSession := validateSession calm;
     reloadSession := reloadSession calm;
     deleteSession := deleteSession calm;
     flushSessions := flushSessions calm;
     qr_image := qr_image calm |}.

(** The readiness wait times out. *)
Definition timing_out : Collaborators :=
  {| setupSession := setupSession calm;
     waitForNestedObject := fun _ _ reg =>
       steady (Throws (Error "Timed out waiting for nested object")) reg;
     validateSession := validateSession calm;
     reloadSession := reloadSession calm;
     deleteSession := deleteSession calm;
     flushSessions := flushSessions calm;
     qr_image := qr_image calm |}.

(** Another layer answers the request while [reloadSession] or
    [deleteSession] is awaited. *)
Definition overtaken : Collaborators :=
  {| setupSession := setupSession calm;
     waitForNestedObject := waitForNestedObject calm;
     validateSession := validateSession calm;
     reloadSession := fun _ reg => mkReply Responded (Returns tt) reg;
     deleteSession := fun id _ reg => mkReply Responded (Returns tt) (delete id reg);
     flushSessions := flushSessions calm;
     qr_image := qr_image calm |}.

(** The image stream breaks when it is piped. *)
Definition broken_pipe : Collaborators :=
  {| setupSession := setupSession calm;
     waitForNestedObject := waitForNestedObject calm;
     validateSession := validateSession calm;
     reloadSession := reloadSession calm;
     deleteSession := deleteSession calm;
     flushSessions := flushSessions calm;
     qr_image := fun text _ =>
       Returns (mkQrStream text (Breaks "write after end" false)) |}.

(** Every awaited collaborator fails. *)
Definition failing : Collaborators :=
  {| setupSession := fun _ reg => (Throws (Error "spawn ENOENT"), reg);
     waitForNestedObject := waitForNestedObject timing_out;
     validateSession := fun _ reg => steady (Throws (Error "validate failed")) reg;
     reloadSession := fun _ reg => steady (Throws (Error "reload failed")) reg;
     deleteSession := fun _ _ reg => steady (Throws (Error "delete failed")) reg;
     flushSessions := fun _ reg => steady (Throws (Error "flush failed")) reg;
     qr_image := qr_image calm |}.

Definition alice : Request := {| sessionId := "alice" |}.

Definition already_sent : Response :=
  {| headersSent := true; writableEnded := true; statusCode := 200 |}.

Definition with_qr (text : string) : gmap string Session :=
  {[ "alice" := mkSession (Some text) ]}.

Definition without_qr : gmap string Session := {[ "alice" := mkSession None ]}.
End Samples.

Module MoreSamples.
(** [setupSession] reports success but yields no client. *)
Definition clientless : Collaborators :=
  {| setupSession := fun id reg =>
       (Returns {| success := true; message := "Session initiated successfully";
                   client := None |}, reg);
     waitForNestedObject := waitForNestedObject Samples.calm;
     validateSession := validateSession Samples.calm;
     reloadSession := reloadSession Samples.calm;
     deleteSession := deleteSession Samples.calm;
     flushSessions := flushSessions Samples.calm;
     qr_image := qr_image Samples.calm |}.

(** [validateSession] resolves to [null]. *)
Definition void : Collaborators :=
  {| setupSession := setupSession Samples.calm;
     waitForNestedObject := waitForNestedObject Samples.calm;
     validateSession := fun _ reg => Samples.steady (Returns VNull) reg;
     reloadSession := reloadSession Samples.calm;
     deleteSession := deleteSession Samples.calm;
     flushSessions := flushSessions Samples.calm;
     qr_image := qr_image Samples.calm |}.

(** [validateSession] rejects with [null]. *)
Definition null_rejecting : Collaborators :=
  {| setupSession := setupSession Samples.calm;
     waitForNestedObject := waitForNestedObject Samples.calm;
     validateSession := fun _ reg => Samples.steady (ThrowsValue VNull) reg;
     reloadSession := reloadSession Samples.calm;
     deleteSession := deleteSession Samples.calm;
     flushSessions := flushSessions Samples.calm;
     qr_image := qr_image Samples.calm |}.

(** Headers committed by another layer, body still streaming. *)
Definition streaming : Response :=
  {| headersSent := true; writableEnded := false; statusCode := 200 |}.
End MoreSamples.


(** ** Proof support *)

Ltac unfold_handlers :=
  unfold serve,
    Controller.startSession, Controller.statusSession, Controller.sessionQrCode,
    Controller.sessionQrCodeImage, Controller.restartSession,
    Controller.terminateSession, Controller.terminateInactiveSessions,
    Controller.terminateAllSessions,
    Part000.startSession, Part000.statusSession, Part000.sessionQrCode,
    Part000.sessionQrCodeImage.

Ltac unfold_ops :=
  unfold try_catch, await, call, sendErrorResponse, res_json, res_writeHead,
    stream_pipe, res_end, res_status, res_headersSent, res_writableEnded,
    thrown_message, of_outcome, record, set_res, set_sessions,
    set_thisHandlerResponded,
    get_res, get_sessions, get_thisHandlerResponded, bind, ret, raise in *.

(** A scrutinee with no other case analysis inside it. *)
Ltac plain x :=
  lazymatch x with
  | context [match _ with _ => _ end] => fail
  | _ => idtac
  end.

(** One step of symbolic execution: rewrite with a known answer of a
    collaborator, or split on the next thing the handler branches on. *)
Ltac branch :=
  match goal with
  | H : ?x = _ |- context [?x] => rewrite H
  | |- context [member ?v _] => is_var v; destruct v
  | |- context [fst ?p] => plain p; destruct p eqn:?
  | |- context [snd ?p] => plain p; destruct p eqn:?
  | |- context [outcome ?p] => plain p; destruct p eqn:?
  | |- context [meanwhile ?p] => plain p; destruct p eqn:?
  | |- context [registry_after ?p] => plain p; destruct p eqn:?
  | |- context [match ?x with _ => _ end] =>
      plain x;
      lazymatch x with
      | negb ?b => destruct b eqn:?
      | _ => destruct x eqn:?
      end
  end.

Ltac execute := unfold_handlers; unfold_ops; cbn; repeat (branch; cbn in *).

(** Go through the entries of a trace that has been computed. *)
Ltac each_entry H :=
  repeat (destruct H as [<- | H]); try contradiction.

Lemma splits_complete {A} (pre : list A) :
  forall l x post, l = (pre ++ x :: post)%list -> In (pre, x, post) (splits l).
Proof.
  induction pre as [| p pre IH]; intros l x post ->; cbn.
  - left; reflexivity.
  - right. apply in_map_iff. exists (pre, x, post). split; [reflexivity |].
    apply IH; reflexivity.
Qed.

(** Enumerate the positions of a trace that has been computed. *)
Ltac positions H :=
  apply splits_complete in H; cbn in H;
  repeat (destruct H as [H | H]; [inversion H; subst; clear H |]);
  try contradiction.

(** ** Once the headers are sent

    The invariant of the response state, proved by composition: every
    operation on the response, every collaborator call and every control
    construct preserves [no_op_once_sent], hence so does every handler. *)

Lemma writes_performed_app t u :
  writes_performed (t ++ u)%list = (writes_performed t + writes_performed u)%nat.
Proof.
  unfold writes_performed. rewrite List.filter_app. apply List.length_app.
Qed.

Lemma writes_performed_stamped t ended ev :
  writes_performed
    (t ++ [ {| sent_before := true; ended_before := ended; what := ev |} ])%list
  = writes_performed t.
Proof.
  rewrite writes_performed_app. unfold writes_performed, performed; cbn.
  rewrite andb_false_r; cbn. apply Nat.add_0_r.
Qed.

Lemma no_op_ret {A} (a : A) : no_op_once_sent (ret a).
Proof. intros w Hw; cbn; auto. Qed.

Lemma no_op_raise {A} (e : Thrown) : no_op_once_sent (raise (A := A) e).
Proof. intros w Hw; cbn; auto. Qed.

Lemma no_op_bind {A B} (m : M A) (k : A -> M B) :
  no_op_once_sent m -> (forall a, no_op_once_sent (k a)) ->
  no_op_once_sent (bind m k).
Proof.
  intros Hm Hk w Hw. unfold bind.
  destruct (Hm w Hw) as [Hsent Hcount].
  destruct (m w) as [[a | e] w']; cbn [fst snd] in *.
  - destruct (Hk a w' Hsent) as [Hsent' Hcount'].
    split; [exact Hsent' | now rewrite Hcount'].
  - split; assumption.
Qed.

Lemma no_op_record ev : no_op_once_sent (record ev).
Proof.
  intros w Hw; cbn. split; [exact Hw |].
  rewrite Hw. apply writes_performed_stamped.
Qed.

Lemma no_op_try_catch {A} (body : M A) (handler : Thrown -> M A) :
  no_op_once_sent body -> (forall e, no_op_once_sent (handler e)) ->
  no_op_once_sent (try_catch body handler).
Proof.
  intros Hb Hh w Hw. unfold try_catch.
  destruct (Hb w Hw) as [Hsent Hcount].
  destruct (body w) as [[a | e] w']; cbn [fst snd] in *; [split; assumption |].
  destruct (no_op_bind (record (Caught e)) (fun _ => handler e)
              (no_op_record _) (fun _ => Hh e) w' Hsent) as [Hsent' Hcount'].
  split; [exact Hsent' | now rewrite Hcount'].
Qed.

Lemma no_op_get_res : no_op_once_sent get_res.
Proof. intros w Hw; cbn; auto. Qed.

Lemma no_op_get_sessions : no_op_once_sent get_sessions.
Proof. intros w Hw; cbn; auto. Qed.

Lemma no_op_get_thisHandlerResponded : no_op_once_sent get_thisHandlerResponded.
Proof. intros w Hw; cbn; auto. Qed.

Lemma no_op_set_sessions reg : no_op_once_sent (set_sessions reg).
Proof. intros w Hw; cbn; auto. Qed.

Lemma no_op_set_thisHandlerResponded b :
  no_op_once_sent (set_thisHandlerResponded b).
Proof. intros w Hw; cbn; auto. Qed.

Lemma no_op_set_res r : headersSent r = true -> no_op_once_sent (set_res r).
Proof. intros Hr w Hw; cbn; auto. Qed.

Lemma no_op_of_outcome {A} (o : Outcome A) : no_op_once_sent (of_outcome o).
Proof. destruct o; [apply no_op_ret | apply no_op_raise | apply no_op_raise]. Qed.

Lemma no_op_thrown_message error : no_op_once_sent (thrown_message error).
Proof. destruct error; [apply no_op_ret | apply no_op_of_outcome]. Qed.

Lemma interfere_keeps_sent mw r :
  headersSent r = true -> headersSent (interfere mw r) = true.
Proof. destruct mw; cbn; auto. Qed.

Create HintDb once_sent.
#[local] Hint Resolve no_op_ret no_op_raise no_op_record no_op_get_res
  no_op_get_sessions no_op_get_thisHandlerResponded no_op_set_sessions
  no_op_set_thisHandlerResponded no_op_of_outcome no_op_thrown_message
  : once_sent.

(** Take a computation apart along its binds, catches and branches. *)
Ltac compose :=
  repeat first
    [ solve [auto with once_sent]
    | apply no_op_bind
    | apply no_op_try_catch
    | match goal with
      | |- forall _, _ => intro
      | |- no_op_once_sent (match ?x with _ => _ end) => destruct x
      end ].

Lemma no_op_res_headersSent : no_op_once_sent res_headersSent.
Proof. unfold res_headersSent; compose. Qed.

Lemma no_op_res_writableEnded : no_op_once_sent res_writableEnded.
Proof. unfold res_writableEnded; compose. Qed.

Lemma no_op_res_status code : no_op_once_sent (res_status code).
Proof. intros w Hw; cbn; auto. Qed.

Lemma no_op_res_json body : no_op_once_sent (res_json body).
Proof.
  intros w Hw; unfold res_json, bind, get_res, record; cbn.
  rewrite Hw; cbn. split; [exact Hw | apply writes_performed_stamped].
Qed.

Lemma no_op_res_writeHead code headers :
  no_op_once_sent (res_writeHead code headers).
Proof.
  intros w Hw; unfold res_writeHead, bind, get_res, record; cbn.
  rewrite Hw; cbn. split; [exact Hw | apply writes_performed_stamped].
Qed.

Lemma no_op_stream_pipe s : no_op_once_sent (stream_pipe s).
Proof.
  intros w Hw; unfold stream_pipe, bind, get_res, record, set_res, raise; cbn.
  rewrite Hw. destruct (on_pipe s); cbn;
    (split; [reflexivity | apply writes_performed_stamped]).
Qed.

Lemma no_op_res_end : no_op_once_sent res_end.
Proof.
  intros w Hw; unfold res_end, bind, get_res, record, set_res; cbn.
  rewrite Hw. split; [reflexivity | apply writes_performed_stamped].
Qed.

Lemma no_op_sendErrorResponse status msg :
  no_op_once_sent (sendErrorResponse status msg).
Proof.
  unfold sendErrorResponse. apply no_op_bind; [apply no_op_res_status |].
  intros _; apply no_op_res_json.
Qed.

Lemma no_op_call {A} c (f : gmap string Session -> Outcome A * gmap string Session) :
  no_op_once_sent (call c f).
Proof. unfold call; compose. Qed.

Lemma no_op_await {A} c (f : gmap string Session -> Reply A) :
  no_op_once_sent (await c f).
Proof.
  intros w Hw; unfold await, bind, get_sessions, get_res, record, set_res,
    set_sessions; cbn.
  rewrite Hw.
  pose proof (interfere_keeps_sent (meanwhile (f (sessions w))) (res w) Hw) as Hi.
  destruct (outcome (f (sessions w))); cbn;
    (split; [exact Hi | apply writes_performed_stamped]).
Qed.

#[local] Hint Resolve no_op_res_headersSent no_op_res_writableEnded
  no_op_res_status no_op_res_json no_op_res_writeHead no_op_stream_pipe
  no_op_res_end no_op_sendErrorResponse no_op_call no_op_await : once_sent.

Lemma controller_handlers_no_op_once_sent K name h req :
  In (name, h) (Controller.exports K) -> no_op_once_sent (h req).
Proof.
  intros Hin; cbn in Hin.
  repeat (destruct Hin as [Hin | Hin]; [inversion Hin; subst; clear Hin |]);
    try contradiction; unfold_handlers; cbn zeta; compose.
Qed.

Lemma part000_startSession_no_op_once_sent K req :
  no_op_once_sent (Part000.startSession K req).
Proof. unfold_handlers; cbn zeta; compose. Qed.

(** On a transport whose headers are sent, no attempt performs a write. *)
Lemma startSession_no_write_once_sent K req reg r :
  headersSent r = true ->
  writes_performed (trace (snd (serve (Controller.startSession K) req reg r))) = 0%nat
  /\ writes_performed (trace (snd (serve (Part000.startSession K) req reg r))) = 0%nat.
Proof.
  intros Hr; unfold serve; split.
  - exact (proj2 (controller_handlers_no_op_once_sent K "startSession" _ req
                    (or_introl eq_refl) (mkWorld r reg [] false) Hr)).
  - exact (proj2 (part000_startSession_no_op_once_sent K req
                    (mkWorld r reg [] false) Hr)).
Qed.

(** ** At most one terminal write in [startSession] (C1) *)

Lemma controller_startSession_one_write K req reg r :
  (writes_performed (trace (snd (serve (Controller.startSession K) req reg r))) <= 1)%nat.
Proof.
  destruct r as [sent ended code].
  execute; unfold writes_performed; cbn; repeat constructor.
Qed.

Lemma part000_startSession_one_write K req reg r :
  (writes_performed (trace (snd (serve (Part000.startSession K) req reg r))) <= 1)%nat.
Proof.
  destruct r as [sent ended code].
  execute; unfold writes_performed; cbn; repeat constructor.
Qed.

Lemma part000_startSession_guarded K req reg r :
  all_writes_guarded (trace (snd (serve (Part000.startSession K) req reg r))) = true.
Proof.
  destruct r as [sent ended code].
  execute; try reflexivity; try discriminate.
Qed.

Lemma controller_startSession_guarded_when_untouched K req reg r :
  headersSent r = false ->
  all_writes_guarded (trace (snd (serve (Controller.startSession K) req reg r))) = true.
Proof.
  destruct r as [sent ended code]; cbn; intros ->.
  execute; try reflexivity; try discriminate.
Qed.

Lemma controller_startSession_only_422_unguarded K req reg r e :
  In e (trace (snd (serve (Controller.startSession K) req reg r))) ->
  unguarded e = true ->
  exists msg, what e = Sent (json 422 (error_body msg)).
Proof.
  destruct r as [sent ended code].
  execute; intros Hin Hun; each_entry Hin;
    cbn in Hun; try discriminate; eexists; reflexivity.
Qed.

(** C1 (the code departs from it).  A request whose response another layer
    has already answered, and whose session [setupSession] rejects: the
    controller's [startSession] enters its 422 write site with the headers
    sent, the one write site of the handler without a check of the flag; the
    write does not go out. *)
Theorem startSession_422_entered_with_headers_sent :
  calls_of (trace (snd (serve (Controller.startSession Samples.rejecting)
                              Samples.alice ∅ Samples.already_sent))) =
    [sent_entry true true
       (json 422 (error_body "Session already exists for: alice"))]
  /\ all_writes_guarded
       (trace (snd (serve (Controller.startSession Samples.rejecting)
                          Samples.alice ∅ Samples.already_sent))) = false
  /\ writes_performed
       (trace (snd (serve (Controller.startSession Samples.rejecting)
                          Samples.alice ∅ Samples.already_sent))) = 0%nat.
Proof. repeat split; reflexivity. Qed.

(** ** Writes after an awaited call in [restartSession] and
       [terminateSession] (C2) *)

(** In both handlers the check of the headers-sent flag precedes the awaited
    [reloadSession] / [deleteSession]; the success write that follows is
    entered with the flag as the await left it. *)
Lemma restartSession_success_write_flag K req reg r validation reg1 m rp :
  validateSession K (sessionId req) reg = mkReply Untouched (Returns validation) reg1 ->
  headersSent r = false ->
  member validation "message" = Returns m ->
  strict_eq_str m "session_not_found" = false ->
  reloadSession K (sessionId req) reg1 = rp ->
  outcome rp = Returns tt ->
  calls_of (trace (snd (serve (Controller.restartSession K) req reg r))) =
    [sent_entry (headersSent (interfere (meanwhile rp) r))
                (writableEnded (interfere (meanwhile rp) r))
                (json (statusCode r) (message_body true "Restarted successfully"))].
Proof.
  destruct r as [sent ended code], rp as [mw o reg2]; cbn.
  intros Hv -> Hm Hne Hr ->.
  destruct mw; execute; reflexivity.
Qed.

Lemma terminateSession_success_write_flag K req reg r validation reg1 m rp :
  validateSession K (sessionId req) reg = mkReply Untouched (Returns validation) reg1 ->
  headersSent r = false ->
  member validation "message" = Returns m ->
  strict_eq_str m "session_not_found" = false ->
  deleteSession K (sessionId req) validation reg1 = rp ->
  outcome rp = Returns tt ->
  calls_of (trace (snd (serve (Controller.terminateSession K) req reg r))) =
    [sent_entry (headersSent (interfere (meanwhile rp) r))
                (writableEnded (interfere (meanwhile rp) r))
                (json (statusCode r) (message_body true "Logged out successfully"))].
Proof.
  destruct r as [sent ended code], rp as [mw o reg2]; cbn.
  intros Hv -> Hm Hne Hr ->.
  destruct mw; execute; reflexivity.
Qed.

(** Every other write of the two handlers is entered with the flag false:
    a write entered with the headers sent can only be the success write. *)
Lemma restart_terminate_only_success_unguarded K h req reg r e :
  h = Controller.restartSession K \/ h = Controller.terminateSession K ->
  In e (trace (snd (serve h req reg r))) ->
  unguarded e = true ->
  exists code msg, what e = Sent (json code (message_body true msg)).
Proof.
  destruct r as [sent ended code].
  intros [-> | ->]; execute; intros Hin Hun; each_entry Hin;
    cbn in Hun; try discriminate; eexists _, _; reflexivity.
Qed.

(** C2 (the code departs from it).  A request for an existing session on an
    untouched response, answered by another layer while [reloadSession]
    (resp. [deleteSession]) is awaited: the handler then enters its success
    write with the headers already sent. *)
Theorem restart_terminate_write_with_headers_sent :
  calls_of (trace (snd (serve (Controller.restartSession Samples.overtaken)
                              Samples.alice Samples.without_qr fresh))) =
    [sent_entry true true (json 200 (message_body true "Restarted successfully"))]
  /\ all_writes_guarded
       (trace (snd (serve (Controller.restartSession Samples.overtaken)
                          Samples.alice Samples.without_qr fresh))) = false
  /\ calls_of (trace (snd (serve (Controller.terminateSession Samples.overtaken)
                                 Samples.alice Samples.without_qr fresh))) =
    [sent_entry true true (json 200 (message_body true "Logged out successfully"))]
  /\ all_writes_guarded
       (trace (snd (serve (Controller.terminateSession Samples.overtaken)
                          Samples.alice Samples.without_qr fresh))) = false.
Proof. repeat split; reflexivity. Qed.

(** ** Setup failure (C3) *)

(** C3. When [setupSession] returns an object whose [success] is false,
    [startSession] of the controller makes exactly one call on the response,
    the 422 error response with that object's message, whatever the state of
    the transport; the only collaborator it invokes is [setupSession], so
    the readiness wait is never started; and on a response whose headers are
    not sent the client observes status 422 with that error payload.  The
    instrumented variant never starts the readiness wait either, and answers
    the same on a response whose headers are not sent. *)
Theorem startSession_setup_failure :
  forall K req reg r sr reg',
    setupSession K (sessionId req) reg = (Returns sr, reg') ->
    success sr = false ->
    let w := snd (serve (Controller.startSession K) req reg r) in
    let w' := snd (serve (Part000.startSession K) req reg r) in
    calls_of (trace w) =
      [sent_entry (headersSent r) (writableEnded r)
                  (json 422 (error_body (message sr)))]
    /\ invocations (trace w) = [setupSession_ (sessionId req)]
    /\ invocations (trace w') = [setupSession_ (sessionId req)]
    /\ (headersSent r = false ->
        response_of (trace w) = Some (422, JsonBody (error_body (message sr)))
        /\ calls_of (trace w') = calls_of (trace w)
        /\ response_of (trace w') = response_of (trace w)).
Proof.
  intros K req reg [sent ended code] sr reg' Hsetup Hfail.
  execute; repeat split; intros; subst; try reflexivity; try discriminate.
Qed.

Lemma startSession_setup_failure_witness :
  calls_of (trace (snd (serve (Controller.startSession Samples.rejecting)
                              Samples.alice ∅ fresh))) =
    [sent_entry false false
                (json 422 (error_body "Session already exists for: alice"))]
  /\ invocations (trace (snd (serve (Controller.startSession Samples.rejecting)
                                    Samples.alice ∅ fresh))) =
    [setupSession_ "alice"]
  /\ response_of (trace (snd (serve (Controller.startSession Samples.rejecting)
                                    Samples.alice ∅ fresh))) =
    Some (422, JsonBody (error_body "Session already exists for: alice")).
Proof.
  destruct (startSession_setup_failure Samples.rejecting Samples.alice ∅ fresh
              {| success := false; message := "Session already exists for: alice";
                 client := None |} ∅ eq_refl eq_refl)
    as (Hcalls & Hinvoked & _ & Hresponse).
  exact (conj Hcalls (conj Hinvoked (proj1 (Hresponse eq_refl)))).
Defined.

(** ** Readiness outcome (C4) *)

(** C4. When [setupSession] succeeds and the headers are not sent once the
    wait for ['pupPage'] has settled, the response of the controller's
    [startSession] is decided by the wait: resolved, it is status 200 with
    [{success:true, message}] carrying the message of [setupSession];
    rejected, it is status 500 with the error payload carrying the
    rejection's message unchanged.  In both cases it is the only call made
    on the response. *)
Theorem startSession_wait_outcome :
  forall K req reg r sr reg',
    setupSession K (sessionId req) reg = (Returns sr, reg') ->
    success sr = true ->
    statusCode r = 200 ->
    let rp := waitForNestedObject K (client sr) "pupPage" reg' in
    headersSent (interfere (meanwhile rp) r) = false ->
    let w := snd (serve (Controller.startSession K) req reg r) in
    (outcome rp = Returns tt ->
       calls_of (trace w) =
         [sent_entry false (writableEnded (interfere (meanwhile rp) r))
                     (json 200 (message_body true (message sr)))]
       /\ response_of (trace w) =
            Some (200, JsonBody (message_body true (message sr))))
    /\ (forall waitError, outcome rp = Throws waitError ->
       calls_of (trace w) =
         [sent_entry false (writableEnded (interfere (meanwhile rp) r))
                     (json 500 (error_body (error_message waitError)))]
       /\ response_of (trace w) =
            Some (500, JsonBody (error_body (error_message waitError)))).
Proof.
  intros K req reg [sent ended code] sr reg' Hsetup Hok Hcode rp Hquiet.
  subst rp; cbn in Hcode; subst code.
  destruct (waitForNestedObject K (client sr) "pupPage" reg')
    as [mw o reg''] eqn:Hwait.
  cbn in Hquiet |- *.
  split; [intros -> | intros waitError ->];
    destruct mw, sent; cbn in Hquiet; try discriminate;
    execute; split; reflexivity.
Qed.

Lemma startSession_wait_outcome_witness :
  calls_of (trace (snd (serve (Controller.startSession Samples.timing_out)
                              Samples.alice ∅ fresh))) =
    [sent_entry false false
                (json 500 (error_body "Timed out waiting for nested object"))]
  /\ response_of (trace (snd (serve (Controller.startSession Samples.timing_out)
                                    Samples.alice ∅ fresh))) =
       Some (500, JsonBody (error_body "Timed out waiting for nested object")).
Proof.
  exact (proj2 (startSession_wait_outcome Samples.timing_out Samples.alice ∅
                  fresh
                  {| success := true; message := "Session initiated successfully";
                     client := Some (ClientHandle 0) |}
                  (<["alice" := mkSession None]> ∅)
                  eq_refl eq_refl eq_refl eq_refl)
               (Error "Timed out waiting for nested object") eq_refl).
Defined.

(** ** The QR endpoint as JSON (C5) *)

Lemma nonempty_truthy q : q <> "" -> truthy (Some q) = true.
Proof.
  intros Hq; cbn. destruct (String.eqb q "") eqn:E; [| reflexivity].
  apply String.eqb_eq in E; contradiction.
Qed.

(** C5 (as amended).  On a response whose headers are not sent (and whose
    status code is the default 200), [sessionQrCode] answers: for an id that
    is not in the registry, [{success:false, message:"session_not_found"}],
    with status 200 in the controller and status 404 in the instrumented
    variant; for a session with a non-empty [qr], status 200 and
    [{success:true, qr}]; for a session without [qr], status 200 and
    [{success:false, message:"qr code not ready or already scanned"}]. *)
Theorem sessionQrCode_answers :
  forall req reg r,
    headersSent r = false ->
    statusCode r = 200 ->
    let t := trace (snd (serve Controller.sessionQrCode req reg r)) in
    let t' := trace (snd (serve Part000.sessionQrCode req reg r)) in
    (reg !! sessionId req = None ->
       answers_json r t 200 session_not_found
       /\ answers_json r t' 404 session_not_found)
    /\ (forall s q, reg !! sessionId req = Some s -> qr s = Some q -> q <> "" ->
       answers_json r t 200 (VObj [("success", VBool true); ("qr", VStr q)])
       /\ answers_json r t' 200 (VObj [("success", VBool true); ("qr", VStr q)]))
    /\ (forall s, reg !! sessionId req = Some s -> qr s = None ->
       answers_json r t 200 qr_not_ready
       /\ answers_json r t' 200 qr_not_ready).
Proof.
  intros req reg [sent ended code]; cbn; intros -> ->.
  repeat split.
  all: try match goal with
           | Hq : ?q <> "" |- _ => apply nonempty_truthy in Hq
           end.
  all: execute; try reflexivity; try discriminate.
  all: match goal with
       | H : qr ?s = Some ?q |- _ => destruct s; cbn in *; subst
       end; cbn in *; congruence.
Qed.

Lemma sessionQrCode_answers_witness :
  answers_json fresh
    (trace (snd (serve Controller.sessionQrCode Samples.alice
                       (Samples.with_qr "XYZ") fresh)))
    200 (VObj [("success", VBool true); ("qr", VStr "XYZ")])
  /\ answers_json fresh
    (trace (snd (serve Part000.sessionQrCode Samples.alice
                       (Samples.with_qr "XYZ") fresh)))
    200 (VObj [("success", VBool true); ("qr", VStr "XYZ")]).
Proof.
  refine (proj1 (proj2 (sessionQrCode_answers Samples.alice
                          (Samples.with_qr "XYZ") fresh eq_refl eq_refl))
                (mkSession (Some "XYZ")) "XYZ" eq_refl eq_refl _).
  discriminate.
Defined.

(** C5 as stated fails on the instrumented variant: its not-found response
    carries status 404, not 200. *)
Lemma part000_sessionQrCode_not_found_is_404 :
  response_of (trace (snd (serve Part000.sessionQrCode Samples.alice ∅ fresh)))
    = Some (404, JsonBody session_not_found)
  /\ response_of (trace (snd (serve Part000.sessionQrCode Samples.alice ∅ fresh)))
    <> Some (200, JsonBody session_not_found).
Proof. split; [reflexivity | discriminate]. Qed.

(** ** An error after the image headers are committed (C6) *)

(** Once [writeHead] has committed the [image/png] headers, all that is
    left in the [try] block is [qrImage.pipe(res)], which returns at once: a
    stream that breaks afterwards never reaches the catch block.  The
    handler resolves having called [writeHead] and [pipe] only; it neither
    writes JSON nor ends the response. *)
Lemma pipe_failure_goes_unhandled K h opts req reg r s stream msg endedFirst :
  (h = Controller.sessionQrCodeImage K /\ opts = None)
  \/ (h = Part000.sessionQrCodeImage K /\ opts = Some "png") ->
  headersSent r = false ->
  reg !! sessionId req = Some s ->
  truthy (qr s) = true ->
  qr_image K (qr_text (qr s)) opts = Returns stream ->
  on_pipe stream = Breaks msg endedFirst ->
  fst (serve h req reg r) = Normal tt
  /\ calls_of (trace (snd (serve h req reg r))) =
       [ sent_entry false (writableEnded r) (writeHead 200 image_png);
         sent_entry true (writableEnded r) (pipe stream) ]
  /\ writableEnded (res (snd (serve h req reg r)))
       = writableEnded r || endedFirst.
Proof.
  destruct r as [sent ended code]; cbn.
  intros [[-> ->] | [-> ->]] -> Hs Hq Himage Hpipe;
    repeat split; execute; reflexivity.
Qed.

(** C6 (the code departs from it).  A session with a [qr], an untouched
    response, and an image stream that breaks after it has been piped: both
    versions of [sessionQrCodeImage] commit the headers, pipe, and resolve.
    No JSON is written, but the catch block is never entered: [res.end()] is
    not called and the response is left open. *)
Theorem broken_image_stream_is_never_ended :
  (fst (serve (Controller.sessionQrCodeImage Samples.broken_pipe)
              Samples.alice (Samples.with_qr "XYZ") fresh) = Normal tt
   /\ calls_of
        (trace (snd (serve (Controller.sessionQrCodeImage Samples.broken_pipe)
                           Samples.alice (Samples.with_qr "XYZ") fresh)))
      = [ sent_entry false false (writeHead 200 image_png);
          sent_entry true false
            (pipe (mkQrStream "XYZ" (Breaks "write after end" false))) ]
   /\ writableEnded
        (res (snd (serve (Controller.sessionQrCodeImage Samples.broken_pipe)
                         Samples.alice (Samples.with_qr "XYZ") fresh)))
      = false)
  /\ (calls_of
        (trace (snd (serve (Part000.sessionQrCodeImage Samples.broken_pipe)
                           Samples.alice (Samples.with_qr "XYZ") fresh)))
      = [ sent_entry false false (writeHead 200 image_png);
          sent_entry true false
            (pipe (mkQrStream "XYZ" (Breaks "write after end" false))) ]
     /\ writableEnded
          (res (snd (serve (Part000.sessionQrCodeImage Samples.broken_pipe)
                           Samples.alice (Samples.with_qr "XYZ") fresh)))
        = false).
Proof. repeat split; reflexivity. Qed.

(** ** Faults stop at the handler boundary (C7) *)

Ltac resolves := execute; intros Hquiet; try reflexivity; discriminate.

Ltac answers_each_fault :=
  intros pre c post inv e Htrace Hwhat; revert Htrace; execute;
  intros Htrace; positions Htrace; cbn in Hwhat; try discriminate;
  inversion Hwhat; subst;
  eexists _, _; (split; [reflexivity |]); (split; [reflexivity |]);
  cbn; intros Hsent; try discriminate; split; reflexivity.

Ltac contain :=
  intros req reg [sent ended code]; split; [resolves | answers_each_fault].

Lemma startSession_contains K : faults_contained (Controller.startSession K).
Proof. contain. Qed.

Lemma statusSession_contains K : faults_contained (Controller.statusSession K).
Proof. contain. Qed.

Lemma sessionQrCode_contains : faults_contained Controller.sessionQrCode.
Proof. contain. Qed.

Lemma sessionQrCodeImage_contains K :
  faults_contained (Controller.sessionQrCodeImage K).
Proof. contain. Qed.

Lemma restartSession_contains K : faults_contained (Controller.restartSession K).
Proof. contain. Qed.

Lemma terminateSession_contains K : faults_contained (Controller.terminateSession K).
Proof. contain. Qed.

Lemma terminateInactiveSessions_contains K :
  faults_contained (Controller.terminateInactiveSessions K).
Proof. contain. Qed.

Lemma terminateAllSessions_contains K :
  faults_contained (Controller.terminateAllSessions K).
Proof. contain. Qed.

(** The four handlers that the instrumented variant defines do the same. *)
Lemma part000_handlers_contain K h :
  In h [Part000.startSession K; Part000.statusSession K;
        Part000.sessionQrCode; Part000.sessionQrCodeImage K] ->
  faults_contained h.
Proof. intros Hin; each_entry Hin; contain. Qed.

(** X15. Every handler exported by the controller contains the [Error]
    objects that [validateSession], [reloadSession], [deleteSession],
    [flushSessions], [setupSession], [waitForNestedObject] and [qr.image]
    throw. *)
Theorem exported_handlers_contain_errors :
  forall K name h, In (name, h) (Controller.exports K) -> faults_contained h.
Proof.
  intros K name h Hin; cbn in Hin.
  repeat (destruct Hin as [Hin | Hin]; [inversion Hin; subst; clear Hin |]);
    try contradiction.
  - apply startSession_contains.
  - apply statusSession_contains.
  - apply sessionQrCode_contains.
  - apply sessionQrCodeImage_contains.
  - apply restartSession_contains.
  - apply terminateSession_contains.
  - apply terminateInactiveSessions_contains.
  - apply terminateAllSessions_contains.
Qed.

Lemma exported_handlers_contain_errors_witness :
  fst (serve (Controller.restartSession Samples.failing)
             Samples.alice Samples.without_qr fresh) = Normal tt
  /\ response_of
       (trace (snd (serve (Controller.restartSession Samples.failing)
                          Samples.alice Samples.without_qr fresh)))
     = Some (500, JsonBody (error_body "validate failed")).
Proof.
  pose proof (exported_handlers_contain_errors Samples.failing
                "restartSession" (Controller.restartSession Samples.failing)
                (or_intror (or_intror (or_intror (or_intror (or_introl eq_refl)))))
                Samples.alice Samples.without_qr fresh) as [Hresolves Hfaults].
  split; [exact (Hresolves eq_refl) |].
  destruct (Hfaults []
              {| sent_before := false; ended_before := false;
                 what := Invoked (validateSession_ "alice")
                           (Some (ErrorObject (Error "validate failed"))) |}
              _ (validateSession_ "alice") (Error "validate failed")
              eq_refl eq_refl)
    as (c' & post' & Hnext & _ & Hanswer).
  injection Hnext as <- _.
  exact (proj2 (Hanswer eq_refl)).
Defined.

(** C7 (the code departs from it).  [validateSession] rejects with [null]
    on an untouched response: in the catch block of [statusSession] (and
    likewise of [restartSession] and [terminateSession]) reading
    [error.message] throws a [TypeError], which leaves the handler; nothing
    is written to the response. *)
Theorem null_rejection_escapes_the_handler :
  (fst (serve (Controller.statusSession MoreSamples.null_rejecting)
              Samples.alice Samples.without_qr fresh)
   = Raised (ErrorObject
       (Error "Cannot read properties of null (reading 'message')"))
   /\ calls_of
        (trace (snd (serve (Controller.statusSession MoreSamples.null_rejecting)
                           Samples.alice Samples.without_qr fresh))) = [])
  /\ (fst (serve (Controller.restartSession MoreSamples.null_rejecting)
                 Samples.alice Samples.without_qr fresh)
      = Raised (ErrorObject
          (Error "Cannot read properties of null (reading 'message')"))
      /\ calls_of
           (trace (snd (serve (Controller.restartSession
                                 MoreSamples.null_rejecting)
                              Samples.alice Samples.without_qr fresh))) = [])
  /\ (fst (serve (Controller.terminateSession MoreSamples.null_rejecting)
                 Samples.alice Samples.without_qr fresh)
      = Raised (ErrorObject
          (Error "Cannot read properties of null (reading 'message')"))
      /\ calls_of
           (trace (snd (serve (Controller.terminateSession
                                 MoreSamples.null_rejecting)
                              Samples.alice Samples.without_qr fresh))) = []).
Proof. repeat split; reflexivity. Qed.

(** ** The flush endpoints (C8) *)

(** C8. For every state of the registry, the empty one included, when
    [flushSessions(true)] (for [terminateInactiveSessions]) or
    [flushSessions(false)] (for [terminateAllSessions]) completes without an
    exception, the handler invokes nothing else and the only call it can make
    on the response is the JSON write of
    [{success:true, message:"Flush completed successfully"}]: the same for
    both handlers and for every registry.  With the headers not sent when the
    flush returns, the client receives it with status 200. *)
Theorem flush_handlers_answer :
  forall K req reg r onlyInactive h,
    (onlyInactive = true /\ h = Controller.terminateInactiveSessions K)
    \/ (onlyInactive = false /\ h = Controller.terminateAllSessions K) ->
    let rp := flushSessions K onlyInactive reg in
    outcome rp = Returns tt ->
    let t := trace (snd (serve h req reg r)) in
    let r' := interfere (meanwhile rp) r in
    invocations t = [flushSessions_ onlyInactive]
    /\ calls_of t =
         (if headersSent r' then []
          else [sent_entry false (writableEnded r')
                           (json (statusCode r) flush_completed)])
    /\ (headersSent r' = false -> statusCode r = 200 ->
        response_of t = Some (200, JsonBody flush_completed)).
Proof.
  intros K req reg [sent ended code] onlyInactive h Hh rp Hok t r'.
  subst rp t r'.
  destruct Hh as [[-> ->] | [-> ->]];
    match goal with
    | H : outcome ?p = _ |- _ => destruct p as [mw o reg'] eqn:Hflush
    end;
    cbn in Hok; subst o;
    destruct mw, sent; cbn; repeat split;
    execute; try reflexivity; intros; subst; try discriminate; reflexivity.
Qed.

Lemma flush_handlers_answer_witness :
  response_of (trace (snd (serve (Controller.terminateInactiveSessions Samples.calm)
                                 Samples.alice ∅ fresh)))
    = Some (200, JsonBody flush_completed)
  /\ response_of (trace (snd (serve (Controller.terminateAllSessions Samples.calm)
                                    Samples.alice Samples.without_qr fresh)))
    = Some (200, JsonBody flush_completed).
Proof.
  split.
  - exact (proj2 (proj2 (flush_handlers_answer Samples.calm Samples.alice ∅
                           fresh true _ (or_introl (conj eq_refl eq_refl))
                           eq_refl)) eq_refl eq_refl).
  - exact (proj2 (proj2 (flush_handlers_answer Samples.calm Samples.alice
                           Samples.without_qr fresh false _
                           (or_intror (conj eq_refl eq_refl)) eq_refl))
                 eq_refl eq_refl).
Defined.


(** ** The two versions of the QR handlers (C9) *)

(** C9 (as amended).  On an untouched response the two versions of
    [sessionQrCode], and of [sessionQrCodeImage], always send the same body;
    they send the same status code whenever the session id is in the
    registry; for an id that is not, the controller answers 200 and the
    instrumented variant 404. *)
Theorem qr_handlers_agree_up_to_not_found_status :
  forall K req reg,
    png_by_default K ->
    let a := observed Controller.sessionQrCode req reg in
    let a' := observed Part000.sessionQrCode req reg in
    let b := observed (Controller.sessionQrCodeImage K) req reg in
    let b' := observed (Part000.sessionQrCodeImage K) req reg in
    (snd <$> a = snd <$> a' /\ snd <$> b = snd <$> b')
    /\ (reg !! sessionId req <> None -> a = a' /\ b = b')
    /\ (reg !! sessionId req = None ->
        fst <$> a = Some 200 /\ fst <$> a' = Some 404
        /\ fst <$> b = Some 200 /\ fst <$> b' = Some 404).
Proof.
  intros K req reg Hpng; unfold observed, fresh.
  repeat split.
  all: execute; try reflexivity; try discriminate; try congruence.
  all: match goal with
       | H1 : qr_image ?k ?x None = _, H2 : qr_image ?k ?x (Some "png") = _ |- _ =>
           rewrite (Hpng x) in H1; rewrite H1 in H2; inversion H2; subst
       end; try reflexivity; try congruence.
Qed.

Lemma qr_handlers_agree_up_to_not_found_status_witness :
  observed Controller.sessionQrCode Samples.alice (Samples.with_qr "XYZ")
    = observed Part000.sessionQrCode Samples.alice (Samples.with_qr "XYZ")
  /\ observed (Controller.sessionQrCodeImage Samples.calm) Samples.alice
       (Samples.with_qr "XYZ")
     = observed (Part000.sessionQrCodeImage Samples.calm) Samples.alice
         (Samples.with_qr "XYZ").
Proof.
  refine (proj1 (proj2 (qr_handlers_agree_up_to_not_found_status Samples.calm
                          Samples.alice (Samples.with_qr "XYZ")
                          (fun _ => eq_refl))) _).
  discriminate.
Defined.

(** C9 as stated fails: for an id that is not in the registry the two
    versions answer with different status codes, in the JSON handler and in
    the image handler. *)
Lemma qr_handlers_differ_on_unknown_id :
  observed Controller.sessionQrCode Samples.alice ∅
    <> observed Part000.sessionQrCode Samples.alice ∅
  /\ observed (Controller.sessionQrCodeImage Samples.calm) Samples.alice ∅
    <> observed (Part000.sessionQrCodeImage Samples.calm) Samples.alice ∅.
Proof. split; discriminate. Qed.

(** ** An empty [qr] (C10) *)

(** C10. A session whose [qr] is the empty string is handled exactly as the
    same session with no [qr]: in both versions of [sessionQrCode] and of
    [sessionQrCodeImage] the two runs make the same calls and leave the same
    transport state.  In the controller the only call either handler can make
    for such a session is the JSON write of
    [{success:false, message:"qr code not ready or already scanned"}], which
    is what the client receives when the headers are not sent; the image
    encoder is not invoked. *)
Theorem empty_qr_is_no_qr :
  forall K req reg r s,
    reg !! sessionId req = Some s ->
    qr s = Some "" ->
    let reg0 := <[sessionId req := mkSession None]> reg in
    (visible (serve Controller.sessionQrCode req reg r)
       = visible (serve Controller.sessionQrCode req reg0 r)
     /\ visible (serve (Controller.sessionQrCodeImage K) req reg r)
       = visible (serve (Controller.sessionQrCodeImage K) req reg0 r)
     /\ visible (serve Part000.sessionQrCode req reg r)
       = visible (serve Part000.sessionQrCode req reg0 r)
     /\ visible (serve (Part000.sessionQrCodeImage K) req reg r)
       = visible (serve (Part000.sessionQrCodeImage K) req reg0 r))
    /\ (forall h, h = Controller.sessionQrCode \/ h = Controller.sessionQrCodeImage K ->
        let t := trace (snd (serve h req reg r)) in
        invocations t = []
        /\ calls_of t =
             (if headersSent r then []
              else [sent_entry false (writableEnded r)
                               (json (statusCode r) qr_not_ready)])
        /\ (headersSent r = false ->
            response_of t = Some (statusCode r, JsonBody qr_not_ready))).
Proof.
  intros K req reg [sent ended code] s Hs Hq reg0.
  assert (H0 : reg0 !! sessionId req = Some (mkSession None))
    by apply lookup_insert_eq.
  split.
  - repeat split; execute; reflexivity.
  - intros h [-> | ->]; repeat split; execute; try reflexivity;
      intros; discriminate.
Qed.

Lemma empty_qr_is_no_qr_witness :
  response_of (trace (snd (serve Controller.sessionQrCode Samples.alice
                                 (Samples.with_qr "") fresh)))
    = Some (200, JsonBody qr_not_ready)
  /\ response_of (trace (snd (serve (Controller.sessionQrCodeImage Samples.calm)
                                    Samples.alice (Samples.with_qr "") fresh)))
    = Some (200, JsonBody qr_not_ready).
Proof.
  pose proof (proj2 (empty_qr_is_no_qr Samples.calm Samples.alice
                       (Samples.with_qr "") fresh (mkSession (Some ""))
                       eq_refl eq_refl)) as H.
  split.
  - exact (proj2 (proj2 (H _ (or_introl eq_refl))) eq_refl).
  - exact (proj2 (proj2 (H _ (or_intror eq_refl))) eq_refl).
Defined.

(** ** Invariants of every handler *)

Ltac each_handler H :=
  cbn in H;
  repeat (destruct H as [<- | H]); try contradiction.

(** X3. In [statusSession], [sessionQrCode], [sessionQrCodeImage],
    [terminateInactiveSessions] and [terminateAllSessions] of the
    controller, and in the four handlers of the instrumented variant, every
    terminal write is entered with the headers-sent flag false, in every
    execution. *)
Theorem checked_handlers_never_write_after_headers :
  forall K h req reg r,
    In h (checked_handlers K) ->
    all_writes_guarded (trace (snd (serve h req reg r))) = true.
Proof.
  intros K h req reg [sent ended code] Hin; each_handler Hin;
    execute; try reflexivity; discriminate.
Qed.

Lemma checked_handlers_never_write_after_headers_witness :
  all_writes_guarded
    (trace (snd (serve (Controller.terminateAllSessions Samples.overtaken)
                       Samples.alice Samples.without_qr Samples.already_sent)))
  = true.
Proof.
  apply (checked_handlers_never_write_after_headers Samples.overtaken
           (Controller.terminateAllSessions Samples.overtaken)).
  do 4 right; left; reflexivity.
Defined.

(** Use what is known of the collaborators' replies: nobody wrote to the
    response in the meantime. *)
Ltac settle Hu :=
  destruct Hu as (Hwait & Hvalidate & Hreload & Hdelete & Hflush);
  repeat match goal with
    | H : waitForNestedObject _ ?a ?b ?c = mkReply ?m _ _ |- _ =>
        is_var m; pose proof (Hwait a b c) as E;
        rewrite H in E; cbn in E; subst m
    | H : validateSession _ ?a ?b = mkReply ?m _ _ |- _ =>
        is_var m; pose proof (Hvalidate a b) as E;
        rewrite H in E; cbn in E; subst m
    | H : reloadSession _ ?a ?b = mkReply ?m _ _ |- _ =>
        is_var m; pose proof (Hreload a b) as E;
        rewrite H in E; cbn in E; subst m
    | H : deleteSession _ ?a ?b ?c = mkReply ?m _ _ |- _ =>
        is_var m; pose proof (Hdelete a b c) as E;
        rewrite H in E; cbn in E; subst m
    | H : flushSessions _ ?a ?b = mkReply ?m _ _ |- _ =>
        is_var m; pose proof (Hflush a b) as E;
        rewrite H in E; cbn in E; subst m
    end;
  cbn in *.

(** A collaborator that throws [Error] objects only did not throw another
    value. *)
Ltac errors_only He :=
  destruct He as (Esetup & Ewait & Evalidate & Ereload & Edelete & Eflush
                  & Eimage);
  match goal with
  | H : setupSession _ ?a ?b = (ThrowsValue ?v, _) |- _ =>
      exfalso; apply (Esetup a b v); rewrite H; reflexivity
  | H : waitForNestedObject _ ?a ?b ?c = mkReply _ (ThrowsValue ?v) _ |- _ =>
      exfalso; apply (Ewait a b c v); rewrite H; reflexivity
  | H : validateSession _ ?a ?b = mkReply _ (ThrowsValue ?v) _ |- _ =>
      exfalso; apply (Evalidate a b v); rewrite H; reflexivity
  | H : reloadSession _ ?a ?b = mkReply _ (ThrowsValue ?v) _ |- _ =>
      exfalso; apply (Ereload a b v); rewrite H; reflexivity
  | H : deleteSession _ ?a ?b ?c = mkReply _ (ThrowsValue ?v) _ |- _ =>
      exfalso; apply (Edelete a b c v); rewrite H; reflexivity
  | H : flushSessions _ ?a ?b = mkReply _ (ThrowsValue ?v) _ |- _ =>
      exfalso; apply (Eflush a b v); rewrite H; reflexivity
  | H : qr_image _ ?a ?b = ThrowsValue ?v |- _ =>
      exfalso; exact (Eimage a b v H)
  end.

(** X4. A request whose response is not started on entry, to whose response
    nobody else writes while the handler is suspended, and whose
    collaborators throw [Error] objects only, gets exactly one terminal
    write from every handler of either file, whatever the collaborators
    return and whichever of them fails: no such path leaves the request
    unanswered. *)
Theorem handlers_answer_exactly_once :
  forall K h req reg r,
    In h (handlers K) ->
    headersSent r = false ->
    undisturbed K ->
    throws_errors_only K ->
    writes_performed (trace (snd (serve h req reg r))) = 1%nat.
Proof.
  intros K h req reg [sent ended code] Hin Hr Hu He; cbn in Hr; subst sent.
  each_handler Hin; execute; try reflexivity;
    first [ errors_only He | settle Hu; discriminate ].
Qed.

Lemma handlers_answer_exactly_once_witness :
  writes_performed
    (trace (snd (serve (Controller.terminateSession Samples.failing)
                       Samples.alice Samples.without_qr fresh))) = 1%nat.
Proof.
  apply (handlers_answer_exactly_once Samples.failing
           (Controller.terminateSession Samples.failing)).
  - do 5 right; left; reflexivity.
  - reflexivity.
  - repeat split; intros; reflexivity.
  - repeat split; intros; discriminate.
Defined.

(** ** [statusSession] *)

(** X5. When [validateSession] resolves, [statusSession] (either version)
    invokes nothing else, leaves the registry as [validateSession] left it,
    and the one call it can make on the response is [res.json] of the very
    value [validateSession] resolved to, with the status code untouched; the
    client receives that value when the headers are not sent at that point. *)
Theorem statusSession_passes_status_through :
  forall K h req reg r sessionData,
    h = Controller.statusSession K \/ h = Part000.statusSession K ->
    let rp := validateSession K (sessionId req) reg in
    outcome rp = Returns sessionData ->
    let r' := interfere (meanwhile rp) r in
    let w := snd (serve h req reg r) in
    invocations (trace w) = [validateSession_ (sessionId req)]
    /\ sessions w = registry_after rp
    /\ calls_of (trace w) =
         (if headersSent r' then []
          else [sent_entry false (writableEnded r')
                           (json (statusCode r) sessionData)])
    /\ (headersSent r' = false ->
        response_of (trace w) = Some (statusCode r, JsonBody sessionData)).
Proof.
  intros K h req reg [sent ended code] sessionData Hh rp Hok r' w.
  subst r' w rp.
  destruct (validateSession K (sessionId req) reg) as [mw o reg'] eqn:Hv.
  cbn in Hok; subst o.
  destruct Hh as [-> | ->]; destruct mw, sent; cbn;
    repeat split; execute; try reflexivity; intros; discriminate.
Qed.

Lemma statusSession_passes_status_through_witness :
  response_of
    (trace (snd (serve (Controller.statusSession Samples.calm) Samples.alice
                       Samples.without_qr fresh)))
  = Some (200, JsonBody (message_body true "session_connected")).
Proof.
  exact (proj2 (proj2 (proj2
           (statusSession_passes_status_through Samples.calm _ Samples.alice
              Samples.without_qr fresh (message_body true "session_connected")
              (or_introl eq_refl) eq_refl))) eq_refl).
Defined.

(** ** [restartSession] and [terminateSession] *)

(** X6. When [validateSession] resolves to a value whose [message] is
    ['session_not_found'], [restartSession] and [terminateSession] never
    invoke [reloadSession] or [deleteSession]: the only collaborator invoked
    is [validateSession], the registry is as it left it, and the one call
    they can make on the response is [res.json] of the validation value
    itself, unchanged. *)
Theorem unknown_session_is_passed_through :
  forall K h req reg r validation validation_message,
    h = Controller.restartSession K \/ h = Controller.terminateSession K ->
    let rp := validateSession K (sessionId req) reg in
    outcome rp = Returns validation ->
    member validation "message" = Returns validation_message ->
    strict_eq_str validation_message "session_not_found" = true ->
    let r' := interfere (meanwhile rp) r in
    let w := snd (serve h req reg r) in
    invocations (trace w) = [validateSession_ (sessionId req)]
    /\ sessions w = registry_after rp
    /\ calls_of (trace w) =
         (if headersSent r' then []
          else [sent_entry false (writableEnded r')
                           (json (statusCode r) validation)])
    /\ (headersSent r' = false ->
        response_of (trace w) = Some (statusCode r, JsonBody validation)).
Proof.
  intros K h req reg [sent ended code] validation m Hh rp Hok Hm Hnf r' w.
  subst r' w rp.
  destruct (validateSession K (sessionId req) reg) as [mw o reg'] eqn:Hv.
  cbn in Hok; subst o.
  destruct Hh as [-> | ->]; destruct mw, sent; cbn;
    repeat split; execute; try reflexivity; intros; discriminate.
Qed.

Lemma unknown_session_is_passed_through_witness :
  invocations
    (trace (snd (serve (Controller.terminateSession Samples.calm)
                       Samples.alice ∅ fresh)))
  = [validateSession_ "alice"]
  /\ response_of
       (trace (snd (serve (Controller.terminateSession Samples.calm)
                          Samples.alice ∅ fresh)))
     = Some (200, JsonBody (message_body false "session_not_found")).
Proof.
  assert (Hvalidation :
            outcome (validateSession Samples.calm (sessionId Samples.alice) ∅)
            = Returns (message_body false "session_not_found"))
    by reflexivity.
  destruct (unknown_session_is_passed_through Samples.calm _ Samples.alice ∅
              fresh (message_body false "session_not_found")
              (VStr "session_not_found") (or_intror eq_refl)
              Hvalidation eq_refl eq_refl)
    as (Hinvoked & _ & _ & Hresponse).
  exact (conj Hinvoked (Hresponse eq_refl)).
Defined.

(** X7. When the session is known (the validation's [message] is not
    ['session_not_found']) and the headers are not sent after validation,
    [restartSession] invokes [validateSession] and then [reloadSession] on
    the same id, and [terminateSession] invokes [validateSession] and then
    [deleteSession] on the id together with the validation value it got;
    once that second call has resolved the registry is as it left it, and
    if nobody wrote to the response meanwhile the client receives
    [{success:true, message}] with ['Restarted successfully'] (resp.
    ['Logged out successfully']). *)
Theorem known_session_is_reloaded_or_deleted :
  forall K req reg r validation validation_message,
    let rp := validateSession K (sessionId req) reg in
    outcome rp = Returns validation ->
    headersSent (interfere (meanwhile rp) r) = false ->
    member validation "message" = Returns validation_message ->
    strict_eq_str validation_message "session_not_found" = false ->
    let reloaded := reloadSession K (sessionId req) (registry_after rp) in
    let deleted :=
      deleteSession K (sessionId req) validation (registry_after rp) in
    let w1 := snd (serve (Controller.restartSession K) req reg r) in
    let w2 := snd (serve (Controller.terminateSession K) req reg r) in
    (invocations (trace w1) =
       [validateSession_ (sessionId req); reloadSession_ (sessionId req)]
     /\ invocations (trace w2) =
       [validateSession_ (sessionId req);
        deleteSession_ (sessionId req) validation])
    /\ (outcome reloaded = Returns tt ->
        sessions w1 = registry_after reloaded
        /\ (meanwhile reloaded = Untouched ->
            response_of (trace w1) =
              Some (statusCode r,
                    JsonBody (message_body true "Restarted successfully"))))
    /\ (outcome deleted = Returns tt ->
        sessions w2 = registry_after deleted
        /\ (meanwhile deleted = Untouched ->
            response_of (trace w2) =
              Some (statusCode r,
                    JsonBody (message_body true "Logged out successfully")))).
Proof.
  intros K req reg [sent ended code] validation m rp Hok Hquiet Hm Hknown
    reloaded deleted w1 w2.
  subst reloaded deleted w1 w2 rp.
  destruct (validateSession K (sessionId req) reg) as [mw o reg'] eqn:Hv.
  cbn in Hok, Hquiet |- *; subst o.
  destruct mw, sent; cbn in Hquiet; try discriminate.
  repeat split; try intros Hdone; try intros Hcalm.
  all: try match type of Hdone with
           | outcome ?p = _ =>
               destruct p as [mw2 o2 reg2] eqn:Hsecond; cbn in *; subst
           end.
  all: execute; try reflexivity; discriminate.
Qed.

Lemma known_session_is_reloaded_or_deleted_witness :
  invocations
    (trace (snd (serve (Controller.terminateSession Samples.calm)
                       Samples.alice Samples.without_qr fresh)))
  = [validateSession_ "alice";
     deleteSession_ "alice" (message_body true "session_connected")]
  /\ sessions (snd (serve (Controller.terminateSession Samples.calm)
                          Samples.alice Samples.without_qr fresh))
     = delete "alice" Samples.without_qr
  /\ response_of
       (trace (snd (serve (Controller.terminateSession Samples.calm)
                          Samples.alice Samples.without_qr fresh)))
     = Some (200, JsonBody (message_body true "Logged out successfully")).
Proof.
  destruct (known_session_is_reloaded_or_deleted Samples.calm Samples.alice
              Samples.without_qr fresh (message_body true "session_connected")
              (VStr "session_connected") eq_refl eq_refl eq_refl eq_refl)
    as ((_ & Hinvoked) & _ & Hdeleted).
  destruct (Hdeleted eq_refl) as (Hregistry & Hresponse).
  exact (conj Hinvoked (conj Hregistry (Hresponse eq_refl))).
Defined.

(** X8. When reading [validation.message] throws (the validation is [null]
    or [undefined]), [restartSession] and [terminateSession] invoke neither
    [reloadSession] nor [deleteSession], and with the headers not sent after
    validation they answer with status 500 and the message of that error. *)
Theorem unreadable_validation_is_a_500 :
  forall K h req reg r validation e,
    h = Controller.restartSession K \/ h = Controller.terminateSession K ->
    let rp := validateSession K (sessionId req) reg in
    outcome rp = Returns validation ->
    headersSent (interfere (meanwhile rp) r) = false ->
    member validation "message" = Throws e ->
    let w := snd (serve h req reg r) in
    invocations (trace w) = [validateSession_ (sessionId req)]
    /\ sessions w = registry_after rp
    /\ answers_json (interfere (meanwhile rp) r) (trace w)
         500 (error_body (error_message e)).
Proof.
  intros K h req reg [sent ended code] validation e Hh rp Hok Hquiet Hm w.
  subst w rp.
  destruct (validateSession K (sessionId req) reg) as [mw o reg'] eqn:Hv.
  cbn in Hok, Hquiet |- *; subst o.
  destruct mw, sent; cbn in Hquiet; try discriminate.
  destruct Hh as [-> | ->]; unfold answers_json;
    repeat split; execute; reflexivity.
Qed.

Lemma unreadable_validation_is_a_500_witness :
  invocations
    (trace (snd (serve (Controller.restartSession MoreSamples.void)
                       Samples.alice Samples.without_qr fresh)))
  = [validateSession_ "alice"]
  /\ response_of
       (trace (snd (serve (Controller.restartSession MoreSamples.void)
                          Samples.alice Samples.without_qr fresh)))
     = Some (500, JsonBody (error_body
               "Cannot read properties of null (reading 'message')")).
Proof.
  destruct (unreadable_validation_is_a_500 MoreSamples.void _ Samples.alice
              Samples.without_qr fresh VNull
              (Error "Cannot read properties of null (reading 'message')")
              (or_introl eq_refl) eq_refl eq_refl eq_refl)
    as (Hinvoked & _ & _ & Hresponse).
  exact (conj Hinvoked Hresponse).
Defined.

(** ** [sessionQrCodeImage] *)

(** X9. For a session with a non-empty [qr], on a response whose headers
    are not sent, when [qr.image] returns a stream that flows:
    [sessionQrCodeImage] (either version) encodes exactly the session's [qr]
    text, once; it calls [writeHead(200, {'Content-Type': 'image/png'})] and
    then pipes that stream, and nothing else; no JSON is written; the client
    receives status 200 with the stream as body and the response is ended;
    the registry is untouched. *)
Theorem qr_image_is_streamed :
  forall K h opts req reg r s stream,
    (h = Controller.sessionQrCodeImage K /\ opts = None)
    \/ (h = Part000.sessionQrCodeImage K /\ opts = Some "png") ->
    headersSent r = false ->
    reg !! sessionId req = Some s ->
    truthy (qr s) = true ->
    qr_image K (qr_text (qr s)) opts = Returns stream ->
    on_pipe stream = Flows ->
    let w := snd (serve h req reg r) in
    fst (serve h req reg r) = Normal tt
    /\ invocations (trace w) = [qr_image_ (qr_text (qr s)) opts]
    /\ calls_of (trace w) =
         [ sent_entry false (writableEnded r) (writeHead 200 image_png);
           sent_entry true (writableEnded r) (pipe stream) ]
    /\ response_of (trace w) = Some (200, StreamBody image_png (Some stream))
    /\ res w = {| headersSent := true; writableEnded := true; statusCode := 200 |}
    /\ sessions w = reg.
Proof.
  intros K h opts req reg [sent ended code] s stream Hh Hr Hs Hq Himage Hflows w.
  subst w; cbn in Hr; subst sent.
  destruct Hh as [[-> ->] | [-> ->]]; repeat split; execute; reflexivity.
Qed.

Lemma qr_image_is_streamed_witness :
  response_of
    (trace (snd (serve (Part000.sessionQrCodeImage Samples.calm) Samples.alice
                       (Samples.with_qr "XYZ") fresh)))
  = Some (200, StreamBody image_png (Some (mkQrStream "XYZ" Flows)))
  /\ res (snd (serve (Part000.sessionQrCodeImage Samples.calm) Samples.alice
                     (Samples.with_qr "XYZ") fresh))
     = {| headersSent := true; writableEnded := true; statusCode := 200 |}.
Proof.
  destruct (qr_image_is_streamed Samples.calm _ (Some "png") Samples.alice
              (Samples.with_qr "XYZ") fresh (mkSession (Some "XYZ"))
              (mkQrStream "XYZ" Flows)
              (or_intror (conj eq_refl eq_refl))
              eq_refl eq_refl eq_refl eq_refl eq_refl)
    as (_ & _ & _ & Hresponse & Hres & _).
  exact (conj Hresponse Hres).
Defined.

(** X10. Entered on a response whose headers are already sent, the
    instrumented [sessionQrCodeImage] does not look at the session's [qr]
    and does not encode anything: it ends the response if it is not ended,
    and does nothing otherwise.  The controller's [sessionQrCodeImage] does
    nothing at all in that case and leaves the response as it found it. *)
Theorem qr_image_on_started_response :
  forall K req reg r,
    headersSent r = true ->
    let w' := snd (serve (Part000.sessionQrCodeImage K) req reg r) in
    let w := snd (serve (Controller.sessionQrCodeImage K) req reg r) in
    (trace w' =
       (if writableEnded r then []
        else [sent_entry true false end_])
     /\ writableEnded (res w') = true)
    /\ (trace w = [] /\ res w = r).
Proof.
  intros K req reg [sent ended code] Hr; cbn in Hr; subst sent.
  destruct ended; repeat split; execute; reflexivity.
Qed.

Lemma qr_image_on_started_response_witness :
  trace (snd (serve (Part000.sessionQrCodeImage Samples.calm) Samples.alice
                    (Samples.with_qr "XYZ") MoreSamples.streaming))
  = [sent_entry true false end_]
  /\ trace (snd (serve (Controller.sessionQrCodeImage Samples.calm)
                       Samples.alice (Samples.with_qr "XYZ")
                       MoreSamples.streaming)) = [].
Proof.
  destruct (qr_image_on_started_response Samples.calm Samples.alice
              (Samples.with_qr "XYZ") MoreSamples.streaming eq_refl)
    as ((Hended & _) & (Hnothing & _)).
  exact (conj Hended Hnothing).
Defined.

(** ** [startSession] *)

(** X11. The readiness wait is started at most once and only after
    [setupSession]: the controller's [startSession] starts it exactly when
    [setupSession] returns with [success] true, on whatever [client] that
    return carries and on the path ['pupPage']; the instrumented variant
    starts it exactly when, in addition, the headers are not sent on entry
    and the return carries a client.  In every other case [setupSession] is
    the only collaborator invoked. *)
Theorem startSession_waits_only_after_setup :
  forall K req reg r,
    let o := fst (setupSession K (sessionId req) reg) in
    invocations (trace (snd (serve (Controller.startSession K) req reg r)))
      = startSession_invocations (sessionId req) (controller_waits o)
    /\ invocations (trace (snd (serve (Part000.startSession K) req reg r)))
      = startSession_invocations (sessionId req)
          (part000_waits (headersSent r) o).
Proof.
  intros K req reg [sent ended code]; cbn.
  destruct (setupSession K (sessionId req) reg)
    as [[sr | e | v] reg'] eqn:Hsetup;
    cbn; [destruct sr as [ok msg [c |]]; destruct ok, sent; cbn | |];
    split; execute; reflexivity.
Qed.

(** X12. When [setupSession] reports success without a client, the
    instrumented [startSession] does not start the readiness wait: on a
    response whose headers are not sent it answers with status 500 and the
    message ['setupSession did not return a client object.'].  The
    controller's [startSession] starts the wait on the missing client. *)
Theorem startSession_without_client :
  forall K req reg r sr reg',
    setupSession K (sessionId req) reg = (Returns sr, reg') ->
    success sr = true ->
    client sr = None ->
    headersSent r = false ->
    let w' := snd (serve (Part000.startSession K) req reg r) in
    let w := snd (serve (Controller.startSession K) req reg r) in
    invocations (trace w') = [setupSession_ (sessionId req)]
    /\ answers_json r (trace w') 500
         (error_body "setupSession did not return a client object.")
    /\ invocations (trace w) =
         [setupSession_ (sessionId req); waitForNestedObject_ None "pupPage"].
Proof.
  intros K req reg [sent ended code] [ok msg c] reg' Hsetup Hok Hc Hr.
  cbn in Hok, Hc, Hr; subst ok c sent.
  unfold answers_json; repeat split; execute; reflexivity.
Qed.

Lemma startSession_without_client_witness :
  invocations
    (trace (snd (serve (Part000.startSession MoreSamples.clientless)
                       Samples.alice ∅ fresh)))
  = [setupSession_ "alice"]
  /\ response_of
       (trace (snd (serve (Part000.startSession MoreSamples.clientless)
                          Samples.alice ∅ fresh)))
     = Some (500, JsonBody (error_body
               "setupSession did not return a client object."))
  /\ invocations
       (trace (snd (serve (Controller.startSession MoreSamples.clientless)
                          Samples.alice ∅ fresh)))
     = [setupSession_ "alice"; waitForNestedObject_ None "pupPage"].
Proof.
  destruct (startSession_without_client MoreSamples.clientless Samples.alice ∅
              fresh
              {| success := true; message := "Session initiated successfully";
                 client := None |} ∅ eq_refl eq_refl eq_refl eq_refl)
    as (Hinvoked & (_ & Hresponse) & Hcontroller).
  exact (conj Hinvoked (conj Hresponse Hcontroller)).
Defined.

(** X13. On a response whose headers are not sent on entry, and provided
    that [setupSession], when it reports success, returns a client, the two
    versions of [startSession] are indistinguishable: same result, same
    calls on the response and on the collaborators in the same order, same
    final transport state and same registry. *)
Theorem startSession_versions_agree :
  forall K req reg r,
    headersSent r = false ->
    (forall sr, fst (setupSession K (sessionId req) reg) = Returns sr ->
                success sr = true -> client sr <> None) ->
    visible (serve (Controller.startSession K) req reg r)
      = visible (serve (Part000.startSession K) req reg r)
    /\ sessions (snd (serve (Controller.startSession K) req reg r))
      = sessions (snd (serve (Part000.startSession K) req reg r)).
Proof.
  intros K req reg [sent ended code] Hr Hclient; cbn in Hr; subst sent.
  destruct (setupSession K (sessionId req) reg)
    as [[sr | e | v] reg'] eqn:Hsetup;
    cbn in Hclient.
  - destruct sr as [ok msg [c |]]; destruct ok;
      try (exfalso; exact (Hclient _ eq_refl eq_refl eq_refl));
      split; execute; reflexivity.
  - split; execute; reflexivity.
  - split; execute; reflexivity.
Qed.

Lemma startSession_versions_agree_witness :
  visible (serve (Controller.startSession Samples.timing_out) Samples.alice ∅
                 fresh)
  = visible (serve (Part000.startSession Samples.timing_out) Samples.alice ∅
                   fresh).
Proof.
  refine (proj1 (startSession_versions_agree Samples.timing_out Samples.alice ∅
                   fresh eq_refl _)).
  intros sr Hsr _ Hnone. cbn in Hsr. injection Hsr as <-. discriminate Hnone.
Defined.

(** ** The QR handlers and the registry *)

(** X14. The four QR handlers read the registry at the requested id only
    and never change it: on two registries that agree at that id they behave
    alike (same result, same calls, same transport state), whatever other
    sessions the registries hold, and the registry after the handler is the
    registry before it. *)
Theorem qr_handlers_read_one_session :
  forall K h req reg reg' r,
    In h (qr_handlers K) ->
    reg !! sessionId req = reg' !! sessionId req ->
    visible (serve h req reg r) = visible (serve h req reg' r)
    /\ sessions (snd (serve h req reg r)) = reg.
Proof.
  intros K h req reg reg' [sent ended code] Hin Hsame.
  each_handler Hin; split; execute; reflexivity.
Qed.

Lemma qr_handlers_read_one_session_witness :
  visible (serve Controller.sessionQrCode Samples.alice (Samples.with_qr "XYZ")
                 fresh)
  = visible (serve Controller.sessionQrCode Samples.alice
                   (<["bob" := mkSession (Some "ABC")]> (Samples.with_qr "XYZ"))
                   fresh).
Proof.
  assert (Hsame :
            Samples.with_qr "XYZ" !! sessionId Samples.alice
            = <["bob" := mkSession (Some "ABC")]> (Samples.with_qr "XYZ")
                !! sessionId Samples.alice) by reflexivity.
  exact (proj1 (qr_handlers_read_one_session Samples.calm
                  Controller.sessionQrCode Samples.alice _ _ fresh
                  (or_introl eq_refl) Hsame)).
Defined.
